(** * google-translate-clone: the language registry and the translation service

    A shallow embedding of [app/types/language.type.ts] and
    [app/models/translate.server.ts].

    Identifiers and display names are JavaScript strings; the TypeScript
    unions [LanguageInputId] and [LanguageOutputId] are erased at run time,
    so they are kept here as predicates on strings.  The asynchronous
    function [translateText] is written in a small monad that threads the
    sequence of observable operations (registry reads, construction of the
    SDK client, the chat-completion request) and carries either the value a
    promise is fulfilled with or the error it is rejected with.  The Groq
    SDK is third-party code: it enters as a record of two operations. *)

From Stdlib Require Import String List Bool Ascii Arith Lia.
Import ListNotations.
Local Open Scope string_scope.

(** ** app/types/language.type.ts *)

Module LanguageType.

(** [LanguageInput] and [LanguageOutput] have the same two fields, and
    both declare [id: LanguageInputId]. *)
Record Language : Type := { id : string; name : string }.

Definition LanguageInput : Type := Language.
Definition LanguageOutput : Type := Language.

(** [type LanguageInputId = "auto" | "en" | "es" | "de"] *)
Definition LanguageInputId (s : string) : Prop :=
  In s ["auto"; "en"; "es"; "de"].

(** [type LanguageOutputId = "en" | "es" | "de"] *)
Definition LanguageOutputId (s : string) : Prop :=
  In s ["en"; "es"; "de"].

(** The array literal is evaluated on every call, hence the [unit]
    argument. *)
Definition getSupportedOutputLanguages (_ : unit) : list LanguageOutput :=
  [ {| id := "en"; name := "English" |};
    {| id := "es"; name := "Español" |};
    {| id := "de"; name := "Deutsch" |} ].

Definition getSupportedInputLanguages (_ : unit) : list LanguageInput :=
  [ {| id := "auto"; name := "Auto" |};
    {| id := "en"; name := "English" |};
    {| id := "es"; name := "Español" |};
    {| id := "de"; name := "Deutsch" |} ].

End LanguageType.

(** The source tree holds a second listing of the same module in which the
    two bytes of the letter n-tilde (C3 B1) appear as the character they
    denote in EUC-JP.  Everything else is byte for byte the same. *)

Module LanguageTypeOtherListing.
Import LanguageType.

Definition getSupportedOutputLanguages (_ : unit) : list LanguageOutput :=
  [ {| id := "en"; name := "English" |};
    {| id := "es"; name := "Espa単ol" |};
    {| id := "de"; name := "Deutsch" |} ].

Definition getSupportedInputLanguages (_ : unit) : list LanguageInput :=
  [ {| id := "auto"; name := "Auto" |};
    {| id := "en"; name := "English" |};
    {| id := "es"; name := "Espa単ol" |};
    {| id := "de"; name := "Deutsch" |} ].

End LanguageTypeOtherListing.

(** ** JavaScript values and control *)

(** Errors that can be thrown or that reject a promise. *)
Inductive JsError : Type :=
| Error (message : string)
| TypeError (message : string)
| APIError (status : nat) (message : string).

(** How a call ends: it returns (a promise is fulfilled), or it throws (a
    promise is rejected). *)
Inductive Settled (A : Type) : Type :=
| Fulfilled (value : A)
| Rejected (reason : JsError).

Arguments Fulfilled {A} value.
Arguments Rejected {A} reason.

(** Interpolation [${v}] of a value that is a string or [undefined]. *)
Definition template_string (v : option string) : string :=
  match v with
  | Some s => s
  | None => "undefined"
  end.

(** [v || d] for [v] a string, [null] or [undefined]: the empty string is
    falsy like the two absent values. *)
Definition js_or (v : option string) (d : string) : string :=
  match v with
  | Some s => if s =? EmptyString then d else s
  | None => d
  end.

(** ** The groq-sdk surface used by the service *)

Module Groq.

Inductive Role : Type := system | user | assistant.

Record Message : Type := { role : Role; content : string }.

(** Argument of [chat.completions.create]. *)
Record ChatCompletionCreateParams : Type :=
  { messages : list Message; model : string }.

(** The part of the response the service reads:
    [result.choices[0].message.content]. *)
Module Response.
Record Message : Type := { content : option string }.
Record Choice : Type := { message : Message }.
Record ChatCompletion : Type := { choices : list Choice }.
End Response.

(** Argument of the constructor: [apiKey] is optional in the SDK. *)
Record ClientOptions : Type := { apiKey : option string }.

(** The SDK as an injected capability: the constructor [new Groq(...)]
    and the request method, each of which may throw. *)
Record Sdk : Type :=
  { Client : Type;
    construct : ClientOptions -> Settled Client;
    chat_completions_create :
      Client -> ChatCompletionCreateParams -> Settled Response.ChatCompletion }.

Definition is_user (m : Message) : bool :=
  match role m with user => true | _ => false end.

End Groq.

(** ** Observable operations and the monad of the service *)

Inductive Event : Type :=
| EvNewGroq (options : Groq.ClientOptions)
| EvGetSupportedInputLanguages
| EvGetSupportedOutputLanguages
| EvChatCompletionsCreate (request : Groq.ChatCompletionCreateParams).

Definition Trace : Type := list Event.

Definition Async (A : Type) : Type := Trace -> Settled A * Trace.

Definition ret {A : Type} (a : A) : Async A :=
  fun tr => (Fulfilled a, tr).

Definition throw {A : Type} (e : JsError) : Async A :=
  fun tr => (Rejected e, tr).

Definition bind {A B : Type} (m : Async A) (k : A -> Async B) : Async B :=
  fun tr =>
    match m tr with
    | (Fulfilled a, tr') => k a tr'
    | (Rejected e, tr') => (Rejected e, tr')
    end.

(** [try { body } catch (error) { handler }] *)
Definition try_catch {A : Type} (body : Async A) (handler : JsError -> Async A)
  : Async A :=
  fun tr =>
    match body tr with
    | (Fulfilled a, tr') => (Fulfilled a, tr')
    | (Rejected e, tr') => handler e tr'
    end.

(** Performs an operation whose outcome is [r], recording it as [ev]. *)
Definition perform {A : Type} (ev : Event) (r : Settled A) : Async A :=
  fun tr => (r, (tr ++ [ev])%list).

Declare Scope async_scope.
Delimit Scope async_scope with async.
Notation "x <- m ;; k" := (bind m (fun x => k))
  (at level 61, m at next level, right associativity) : async_scope.

(** [a[0].message.content]: reading a property of [undefined] throws. *)
Definition first_choice_content (cs : list Groq.Response.Choice)
  : Async (option string) :=
  match nth_error cs 0 with
  | Some c => ret (Groq.Response.content (Groq.Response.message c))
  | None =>
      throw (TypeError "Cannot read properties of undefined (reading 'message')")
  end.

(** ** app/models/translate.server.ts *)

Definition ProcessEnv : Type := string -> option string.

(** What the module holds once its top-level statements have run. *)
Record TranslateServer : Type := { GROQ_API_KEY : string }.

(** Lines 9 to 13: the guard on [process.env.GROQ_API_KEY] and the
    constant. *)
Definition module_init (env : ProcessEnv) : Settled TranslateServer :=
  match env "GROQ_API_KEY" with
  | Some key => Fulfilled {| GROQ_API_KEY := key |}
  | None => Rejected (Error "Missing env: GROQ_API_KEY")
  end.

Definition system_prompt : string :=
  "You are an AI that translates text. You receive a text from the user. Do not answer, just translate the text. The original language is surrounded by `{{` and `}}`. You can also receive {{auto}} wich means that you have to detect the language. The language you translate to is surrounded by `[[` and `]]`.".

(** The seven fixed messages that precede the user's text. *)
Definition few_shot : list Groq.Message :=
  [ {| Groq.role := Groq.system; Groq.content := system_prompt |};
    {| Groq.role := Groq.user;
       Groq.content := "Hola mundo {{Español}} [[English]]" |};
    {| Groq.role := Groq.assistant; Groq.content := "Hello world" |};
    {| Groq.role := Groq.user;
       Groq.content := "How are you? {{Auto}} [[Deutsch]]" |};
    {| Groq.role := Groq.assistant; Groq.content := "Wie geht es dir?" |};
    {| Groq.role := Groq.user;
       Groq.content := "Buen día, como estás? {{Auto}} [[English]]" |};
    {| Groq.role := Groq.assistant;
       Groq.content := "Good morning, how are you?" |} ].

(** [`${inputText} {{${fromLanguage}}} [[${toLanguage}]]`] *)
Definition annotate (inputText : string) (fromLanguage toLanguage : option string)
  : string :=
  inputText ++ " {{" ++ template_string fromLanguage ++ "}} [["
            ++ template_string toLanguage ++ "]]".

(** The object literal passed to [groq.chat.completions.create]. *)
Definition completion_request (inputText : string)
  (fromLanguage toLanguage : option string) : Groq.ChatCompletionCreateParams :=
  {| Groq.messages :=
       (few_shot ++
        [ {| Groq.role := Groq.user;
             Groq.content := annotate inputText fromLanguage toLanguage |} ])%list;
     Groq.model := "llama3-70b-8192" |}.

(** [langs.find((lang) => lang.id === wanted)?.name] *)
Definition lookup_name (langs : list LanguageType.Language) (wanted : string)
  : option string :=
  option_map LanguageType.name
    (find (fun lang => LanguageType.id lang =? wanted) langs).

Section Service.

Variable sdk : Groq.Sdk.
Variable server : TranslateServer.

Local Open Scope async_scope.

Definition translateText (fromLanguageId toLanguageId inputText : string)
  : Async string :=
  if fromLanguageId =? toLanguageId then ret inputText
  else
    let options := {| Groq.apiKey := Some (GROQ_API_KEY server) |} in
    groq <- perform (EvNewGroq options) (Groq.construct sdk options) ;;
    inputs <- perform EvGetSupportedInputLanguages
                (Fulfilled (LanguageType.getSupportedInputLanguages tt)) ;;
    let fromLanguage := lookup_name inputs fromLanguageId in
    outputs <- perform EvGetSupportedOutputLanguages
                 (Fulfilled (LanguageType.getSupportedOutputLanguages tt)) ;;
    let toLanguage := lookup_name outputs toLanguageId in
    try_catch
      (let request := completion_request inputText fromLanguage toLanguage in
       result <- perform (EvChatCompletionsCreate request)
                   (Groq.chat_completions_create sdk groq request) ;;
       content <- first_choice_content (Groq.Response.choices result) ;;
       ret (js_or content EmptyString))
      (fun error => ret "Error translating text").

End Service.

(** ** The process around the module

    The top-level statements of the module run once, when it is first
    imported; [translateText] exists only if they complete.  A process
    then answers the requests it receives one after the other. *)

Record TranslationRequest : Type :=
  { sourceLanguageId : string; targetLanguageId : string; text : string }.

Fixpoint serve (sdk : Groq.Sdk) (server : TranslateServer)
  (requests : list TranslationRequest) : Async (list string) :=
  match requests with
  | [] => ret []
  | r :: rest =>
      bind (translateText sdk server (sourceLanguageId r) (targetLanguageId r)
              (text r))
        (fun out => bind (serve sdk server rest) (fun outs => ret (out :: outs)))
  end.

Definition run_process (sdk : Groq.Sdk) (env : ProcessEnv)
  (requests : list TranslationRequest) : Async (list string) :=
  match module_init env with
  | Fulfilled server => serve sdk server requests
  | Rejected e => throw e
  end.

(** ** Strings as JavaScript measures them

    A string is kept as the bytes of its UTF-8 encoding; [s.length] counts
    UTF-16 code units.  A byte that starts a character counts for one unit,
    or for two when the character lies outside the basic plane (a four-byte
    sequence); a continuation byte counts for none. *)

Definition utf16_units (b : ascii) : nat :=
  let n := nat_of_ascii b in
  if (n <? 128)%nat then 1
  else if (n <? 192)%nat then 0
  else if (n <? 240)%nat then 1
  else 2.

Fixpoint utf16_length (s : string) : nat :=
  match s with
  | EmptyString => 0
  | String b rest => utf16_units b + utf16_length rest
  end.

(** ** zod and conform, as the routes use them *)

(** What a request carries under a field name: the query string of a GET
    navigation or the form data of a POST, with at most one value per
    name. *)
Definition Payload : Type := string -> option string.

Module Zod.

Inductive Issue : Type :=
| invalid_type (message : string)
| invalid_enum_value
| too_small (message : string)
| too_big (message : string).

Inductive SafeParse (A : Type) : Type :=
| success (value : A)
| error (issues : list Issue).

Arguments success {A} value.
Arguments error {A} issues.

Definition issues_of {A : Type} (r : SafeParse A) : list Issue :=
  match r with
  | success _ => []
  | error issues => issues
  end.

(** A schema for one field reads a string or [undefined]. *)
Definition Schema : Type := option string -> SafeParse string.

(** [z.enum([...])] *)
Definition enum (values : list string) : Schema :=
  fun v =>
    match v with
    | Some s =>
        if existsb (String.eqb s) values then success s
        else error [invalid_enum_value]
    | None => error [invalid_type "Required"]
    end.

(** [schema.default(d)]: [undefined] is replaced before [schema] runs. *)
Definition default (d : string) (schema : Schema) : Schema :=
  fun v =>
    match v with
    | Some s => schema (Some s)
    | None => schema (Some d)
    end.

(** [z.string({ required_error }).min(lo, tooShort).max(hi, tooLong)]: both
    bounds are checked and every failed check leaves its issue. *)
Definition string_min_max (required_error : string)
  (lo : nat) (tooShort : string) (hi : nat) (tooLong : string) : Schema :=
  fun v =>
    match v with
    | None => error [invalid_type required_error]
    | Some s =>
        match ((if (utf16_length s <? lo)%nat then [too_small tooShort] else []) ++
               (if (hi <? utf16_length s)%nat then [too_big tooLong] else []))%list with
        | [] => success s
        | issues => error issues
        end
    end.

End Zod.

(** conform hands an empty value to the schema as [undefined]. *)
Definition strip_empty (v : option string) : option string :=
  match v with
  | Some s => if s =? EmptyString then None else Some s
  | None => None
  end.

(** [parseWithZod(payload, { schema })] *)
Definition parseWithZod {A : Type} (payload : Payload)
  (schema : Payload -> Zod.SafeParse A) : Zod.SafeParse A :=
  schema (fun field => strip_empty (payload field)).

(** ** app/routes/_index.tsx, the listing that follows the service

    The loader reads the query string: the language pair has defaults and
    is checked first, then the text. *)

Module IndexRoute.

Module Languages.
Record Value : Type := { inputLanguage : string; outputLanguage : string }.
End Languages.

Record LoaderData : Type :=
  { supportedInputLanguages : list LanguageType.LanguageInput;
    supportedOutputLanguages : list LanguageType.LanguageOutput;
    inputLanguage : string;
    outputLanguage : string;
    outputText : string }.

Definition languageSchema (payload : Payload) : Zod.SafeParse Languages.Value :=
  match Zod.default "auto" (Zod.enum ["auto"; "en"; "es"; "de"])
          (payload "inputLanguage"),
        Zod.default "en" (Zod.enum ["en"; "es"; "de"])
          (payload "outputLanguage") with
  | Zod.success i, Zod.success o =>
      Zod.success {| Languages.inputLanguage := i; Languages.outputLanguage := o |}
  | r1, r2 => Zod.error (Zod.issues_of r1 ++ Zod.issues_of r2)%list
  end.

Definition translateTextSchema (payload : Payload) : Zod.SafeParse string :=
  Zod.string_min_max "Provide a text"
    3 "Provide a text at least of 3 characters"
    200 "Provide a text at max of 50 characters"
    (payload "inputText").

Section Loader.

Variable sdk : Groq.Sdk.
Variable server : TranslateServer.

Local Open Scope async_scope.

Definition loader (payload : Payload) : Async LoaderData :=
  ins <- perform EvGetSupportedInputLanguages
           (Fulfilled (LanguageType.getSupportedInputLanguages tt)) ;;
  outs <- perform EvGetSupportedOutputLanguages
            (Fulfilled (LanguageType.getSupportedOutputLanguages tt)) ;;
  match parseWithZod payload languageSchema with
  | Zod.error _ => throw (Error "Invalid search params, never reach here")
  | Zod.success submissionLanguage =>
      let i := Languages.inputLanguage submissionLanguage in
      let o := Languages.outputLanguage submissionLanguage in
      match parseWithZod payload translateTextSchema with
      | Zod.error _ =>
          ret {| supportedInputLanguages := ins;
                 supportedOutputLanguages := outs;
                 inputLanguage := i;
                 outputLanguage := o;
                 outputText := EmptyString |}
      | Zod.success inputText =>
          out <- translateText sdk server i o inputText ;;
          ret {| supportedInputLanguages := ins;
                 supportedOutputLanguages := outs;
                 inputLanguage := i;
                 outputLanguage := o;
                 outputText := out |}
      end
  end.

End Loader.

(** The component's state that the two handlers read: the three [useState]
    cells, the text the loader returned and whether a navigation is under
    way. *)
Module View.
Record State : Type :=
  { inputText : string;
    inputLanguage : string;
    outputLanguage : string;
    loadedOutputText : string;
    isTranslating : bool }.
End View.

(** What a handler asks the router to do. *)
Inductive Submission : Type :=
| NoSubmit
| Submit (payload : Payload)
| DebouncedSubmit (payload : Payload).

(** [handleChangeForm].  [inputText] is the state cell as the handler
    captured it, [form] the fields of [e.currentTarget] as [submit]
    serializes them, and [targetIsTextArea] is
    [e.target instanceof HTMLTextAreaElement]. *)
Definition handleChangeForm (inputText : string) (form : Payload)
  (targetIsTextArea : bool) : Submission :=
  if (3 <? utf16_length inputText)%nat then
    if targetIsTextArea then DebouncedSubmit form else Submit form
  else NoSubmit.

(** [handleSubmit]: the new state and the object passed to [submit]. *)
Definition handleSubmit (v : View.State) : View.State * Payload :=
  ({| View.inputText := View.loadedOutputText v;
      View.inputLanguage := View.outputLanguage v;
      View.outputLanguage := View.inputLanguage v;
      View.loadedOutputText := View.loadedOutputText v;
      View.isTranslating := View.isTranslating v |},
   fun field =>
     if field =? "inputLanguage" then Some (View.outputLanguage v)
     else if field =? "outputLanguage" then Some (View.inputLanguage v)
     else if field =? "inputText" then Some (View.loadedOutputText v)
     else None).

(** The [disabled] attribute of the swap button. *)
Definition swap_disabled (v : View.State) : bool :=
  (View.inputLanguage v =? "auto")
  || View.isTranslating v
  || (View.inputLanguage v =? View.outputLanguage v).

End IndexRoute.

(** ** app/routes/_index.tsx, the listing that redirects

    The text is checked first; the language pair has no default and a
    refused pair redirects to the root with a toast message. *)

Module IndexRouteRedirect.

Module Languages.
Record Value : Type := { inputLanguage : string; outputLanguage : string }.
End Languages.

Record LoaderData : Type :=
  { supportedInputLanguages : list LanguageType.LanguageInput;
    supportedOutputLanguages : list LanguageType.LanguageOutput;
    outputText : string }.

(** The loader returns its data or the response of [redirectWithError]. *)
Inductive LoaderResult : Type :=
| Data (data : LoaderData)
| RedirectWithError (url message : string).

Definition languageSchema (payload : Payload) : Zod.SafeParse Languages.Value :=
  match Zod.enum ["auto"; "en"; "es"; "de"] (payload "inputLanguage"),
        Zod.enum ["en"; "es"; "de"] (payload "outputLanguage") with
  | Zod.success i, Zod.success o =>
      Zod.success {| Languages.inputLanguage := i; Languages.outputLanguage := o |}
  | r1, r2 => Zod.error (Zod.issues_of r1 ++ Zod.issues_of r2)%list
  end.

Definition translateTextSchema (payload : Payload) : Zod.SafeParse string :=
  Zod.string_min_max "Provide a text"
    3 "Provide a text at least of 3 characters"
    50 "Provide a text at max of 50 characters"
    (payload "inputText").

Section Loader.

Variable sdk : Groq.Sdk.
Variable server : TranslateServer.

Local Open Scope async_scope.

Definition loader (payload : Payload) : Async LoaderResult :=
  ins <- perform EvGetSupportedInputLanguages
           (Fulfilled (LanguageType.getSupportedInputLanguages tt)) ;;
  outs <- perform EvGetSupportedOutputLanguages
            (Fulfilled (LanguageType.getSupportedOutputLanguages tt)) ;;
  match parseWithZod payload translateTextSchema with
  | Zod.error _ =>
      ret (Data {| supportedInputLanguages := ins;
                   supportedOutputLanguages := outs;
                   outputText := EmptyString |})
  | Zod.success inputText =>
      match parseWithZod payload languageSchema with
      | Zod.error _ => ret (RedirectWithError "/" "Invalid search params")
      | Zod.success submissionLanguage =>
          out <- translateText sdk server
                   (Languages.inputLanguage submissionLanguage)
                   (Languages.outputLanguage submissionLanguage) inputText ;;
          ret (Data {| supportedInputLanguages := ins;
                       supportedOutputLanguages := outs;
                       outputText := out |})
      end
  end.

End Loader.

End IndexRouteRedirect.

(** ** app/routes/_index.tsx, the listing with an action

    The loader only lists the languages; a POST carries the pair and the
    text together and is checked by one schema. *)

Module IndexRouteAction.

Module Translate.
Record Value : Type :=
  { inputLanguage : string; outputLanguage : string; text : string }.
End Translate.

Record LoaderData : Type :=
  { supportedInputLanguages : list LanguageType.LanguageInput;
    supportedOutputLanguages : list LanguageType.LanguageOutput;
    defaultOutputLanguage : string }.

(** The action answers with [submission.reply()] or with the translation. *)
Inductive ActionResult : Type :=
| Reply (issues : list Zod.Issue)
| OutputText (outputText : string).

Definition translateSchema (payload : Payload) : Zod.SafeParse Translate.Value :=
  match Zod.enum ["auto"; "en"; "es"; "de"] (payload "inputLanguage"),
        Zod.enum ["en"; "es"; "de"] (payload "outputLanguage"),
        Zod.string_min_max "Provide a text"
          3 "Provide a text at least of 3 characters"
          50 "Provide a text at max of 50 characters"
          (payload "text") with
  | Zod.success i, Zod.success o, Zod.success t =>
      Zod.success {| Translate.inputLanguage := i;
                     Translate.outputLanguage := o;
                     Translate.text := t |}
  | r1, r2, r3 =>
      Zod.error (Zod.issues_of r1 ++ Zod.issues_of r2 ++ Zod.issues_of r3)%list
  end.

Local Open Scope async_scope.

(** [supportedOutputLanguages[0].id] reads a property of the first entry. *)
Definition loader (_ : unit) : Async LoaderData :=
  ins <- perform EvGetSupportedInputLanguages
           (Fulfilled (LanguageType.getSupportedInputLanguages tt)) ;;
  outs <- perform EvGetSupportedOutputLanguages
            (Fulfilled (LanguageType.getSupportedOutputLanguages tt)) ;;
  match nth_error outs 0 with
  | Some first =>
      ret {| supportedInputLanguages := ins;
             supportedOutputLanguages := outs;
             defaultOutputLanguage := LanguageType.id first |}
  | None =>
      throw (TypeError "Cannot read properties of undefined (reading 'id')")
  end.

Definition action (sdk : Groq.Sdk) (server : TranslateServer) (formData : Payload)
  : Async ActionResult :=
  match parseWithZod formData translateSchema with
  | Zod.error issues => ret (Reply issues)
  | Zod.success value =>
      out <- translateText sdk server (Translate.inputLanguage value)
               (Translate.outputLanguage value) (Translate.text value) ;;
      ret (OutputText out)
  end.

End IndexRouteAction.

(** A payload built from the fields it holds. *)
Fixpoint payload_of (fields : list (string * string)) : Payload :=
  fun field =>
    match fields with
    | [] => None
    | (k, v) :: rest => if k =? field then Some v else payload_of rest field
    end.

(** An SDK whose constructor throws. *)
Definition broken_sdk (e : JsError) : Groq.Sdk :=
  {| Groq.Client := unit;
     Groq.construct := fun _ => Rejected e;
     Groq.chat_completions_create := fun _ _ => Rejected e |}.

(** ** The memory a call can reach

    Two kinds of objects outlive a call and can be changed by any code of
    the process: [process.env], and the arrays that the registry functions
    hand to their callers.  A store holds both, next to the operations
    performed so far.  The service is written a second time over that
    store, with the array literals as allocations and [find] as a read of
    the array at an address; the objects built for the request go to the
    SDK and are not kept. *)

Definition Address : Type := nat.

Record Store : Type :=
  { process_env : ProcessEnv;
    arrays : list (list LanguageType.Language);
    performed : Trace }.

Definition Proc (A : Type) : Type := Store -> Settled A * Store.

Module InStore.

Definition ret {A : Type} (a : A) : Proc A :=
  fun st => (Fulfilled a, st).

Definition throw {A : Type} (e : JsError) : Proc A :=
  fun st => (Rejected e, st).

Definition bind {A B : Type} (m : Proc A) (k : A -> Proc B) : Proc B :=
  fun st =>
    match m st with
    | (Fulfilled a, st') => k a st'
    | (Rejected e, st') => (Rejected e, st')
    end.

Definition try_catch {A : Type} (body : Proc A) (handler : JsError -> Proc A)
  : Proc A :=
  fun st =>
    match body st with
    | (Fulfilled a, st') => (Fulfilled a, st')
    | (Rejected e, st') => handler e st'
    end.

Definition perform {A : Type} (ev : Event) (r : Settled A) : Proc A :=
  fun st =>
    (r, {| process_env := process_env st;
           arrays := arrays st;
           performed := (performed st ++ [ev])%list |}).

(** An array literal: a new object at the next free address. *)
Definition new_array (content : list LanguageType.Language) : Proc Address :=
  fun st =>
    (Fulfilled (length (arrays st)),
     {| process_env := process_env st;
        arrays := (arrays st ++ [content])%list;
        performed := performed st |}).

(** [array.find((lang) => lang.id === wanted)?.name], on the array as the
    store holds it at that moment. *)
Definition find_name (array : Address) (wanted : string)
  : Proc (option string) :=
  fun st =>
    match nth_error (arrays st) array with
    | Some langs => (Fulfilled (lookup_name langs wanted), st)
    | None => (Rejected (TypeError "not an array"), st)
    end.

Declare Scope proc_scope.
Delimit Scope proc_scope with proc.
Notation "x <- m ;; k" := (bind m (fun x => k))
  (at level 61, m at next level, right associativity) : proc_scope.

Local Open Scope proc_scope.

Definition getSupportedOutputLanguages : Proc Address :=
  _ <- perform EvGetSupportedOutputLanguages (Fulfilled tt) ;;
  new_array (LanguageType.getSupportedOutputLanguages tt).

Definition getSupportedInputLanguages : Proc Address :=
  _ <- perform EvGetSupportedInputLanguages (Fulfilled tt) ;;
  new_array (LanguageType.getSupportedInputLanguages tt).

(** The top-level statements of the module: the only read of
    [process.env]. *)
Definition load_module : Proc TranslateServer :=
  fun st => (module_init (process_env st), st).

Definition first_choice_content (cs : list Groq.Response.Choice)
  : Proc (option string) :=
  match nth_error cs 0 with
  | Some c => ret (Groq.Response.content (Groq.Response.message c))
  | None =>
      throw (TypeError "Cannot read properties of undefined (reading 'message')")
  end.

Definition translateText (sdk : Groq.Sdk) (server : TranslateServer)
  (fromLanguageId toLanguageId inputText : string) : Proc string :=
  if fromLanguageId =? toLanguageId then ret inputText
  else
    let options := {| Groq.apiKey := Some (GROQ_API_KEY server) |} in
    groq <- perform (EvNewGroq options) (Groq.construct sdk options) ;;
    inputs <- getSupportedInputLanguages ;;
    fromLanguage <- find_name inputs fromLanguageId ;;
    outputs <- getSupportedOutputLanguages ;;
    toLanguage <- find_name outputs toLanguageId ;;
    try_catch
      (let request := completion_request inputText fromLanguage toLanguage in
       result <- perform (EvChatCompletionsCreate request)
                   (Groq.chat_completions_create sdk groq request) ;;
       content <- first_choice_content (Groq.Response.choices result) ;;
       ret (js_or content EmptyString))
      (fun error => ret "Error translating text").

End InStore.

(** ** Test doubles for the SDK *)

(** A client whose constructor behaves like the SDK's (it refuses a missing
    key) and whose request method answers with [reply]. *)
Definition stub_sdk
  (reply : Groq.ChatCompletionCreateParams -> Settled Groq.Response.ChatCompletion)
  : Groq.Sdk :=
  {| Groq.Client := string;
     Groq.construct := fun options =>
       match Groq.apiKey options with
       | Some key => Fulfilled key
       | None => Rejected (Error "The GROQ_API_KEY environment variable is missing or empty")
       end;
     Groq.chat_completions_create := fun _ request => reply request |}.

Definition completion_of (content : option string) : Groq.Response.ChatCompletion :=
  {| Groq.Response.choices :=
       [ {| Groq.Response.message := {| Groq.Response.content := content |} |} ] |}.

Definition demo_server : TranslateServer := {| GROQ_API_KEY := "gsk_demo" |}.

Definition demo_env : ProcessEnv :=
  fun key => if key =? "GROQ_API_KEY" then Some "gsk_demo" else None.

Definition empty_env : ProcessEnv := fun _ => None.

(** ** Vocabulary of the statements *)

(** The operations of a call that gets past the equality test, up to and
    including the request. *)
Definition call_events (server : TranslateServer)
  (fromLanguageId toLanguageId inputText : string) : list Event :=
  [ EvNewGroq {| Groq.apiKey := Some (GROQ_API_KEY server) |};
    EvGetSupportedInputLanguages;
    EvGetSupportedOutputLanguages;
    EvChatCompletionsCreate
      (completion_request inputText
         (lookup_name (LanguageType.getSupportedInputLanguages tt) fromLanguageId)
         (lookup_name (LanguageType.getSupportedOutputLanguages tt) toLanguageId)) ].

(** What a call returns once the client exists, by the outcome of the
    request. *)
Definition settle_completion (r : Settled Groq.Response.ChatCompletion)
  : string :=
  match r with
  | Fulfilled result =>
      match Groq.Response.choices result with
      | c :: _ => js_or (Groq.Response.content (Groq.Response.message c)) EmptyString
      | [] => "Error translating text"
      end
  | Rejected _ => "Error translating text"
  end.

Fixpoint take_while {A : Type} (p : A -> bool) (l : list A) : list A :=
  match l with
  | [] => []
  | x :: rest => if p x then x :: take_while p rest else []
  end.

(** The user messages that end a conversation: the longest suffix made of
    user messages only. *)
Definition trailing_user_messages (msgs : list Groq.Message)
  : list Groq.Message :=
  rev (take_while Groq.is_user (rev msgs)).

Definition user_message (content : string) : Groq.Message :=
  {| Groq.role := Groq.user; Groq.content := content |}.

(** The value a field with a default stands for: what was submitted, or
    the default when nothing (or an empty value) was. *)
Definition submitted_or (d : string) (v : option string) : string :=
  match strip_empty v with
  | Some s => s
  | None => d
  end.

(** The two registry reads every loader starts with. *)
Definition registry_reads : list Event :=
  [EvGetSupportedInputLanguages; EvGetSupportedOutputLanguages].

(** What a call answers, as a function of the SDK, of the key the module
    holds and of the three arguments. *)
Definition outcome_of_call (sdk : Groq.Sdk) (server : TranslateServer)
  (fromLanguageId toLanguageId inputText : string) : Settled string :=
  if fromLanguageId =? toLanguageId then Fulfilled inputText
  else
    match Groq.construct sdk {| Groq.apiKey := Some (GROQ_API_KEY server) |} with
    | Rejected e => Rejected e
    | Fulfilled groq =>
        Fulfilled
          (settle_completion
             (Groq.chat_completions_create sdk groq
                (completion_request inputText
                   (lookup_name (LanguageType.getSupportedInputLanguages tt)
                      fromLanguageId)
                   (lookup_name (LanguageType.getSupportedOutputLanguages tt)
                      toLanguageId))))
    end.

(** The arrays a call allocates. *)
Definition allocated_arrays (sdk : Groq.Sdk) (server : TranslateServer)
  (fromLanguageId toLanguageId : string) : list (list LanguageType.Language) :=
  if fromLanguageId =? toLanguageId then []
  else
    match Groq.construct sdk {| Groq.apiKey := Some (GROQ_API_KEY server) |} with
    | Rejected _ => []
    | Fulfilled _ =>
        [ LanguageType.getSupportedInputLanguages tt;
          LanguageType.getSupportedOutputLanguages tt ]
    end.

(** A store in which the variable was deleted after the module was loaded
    and the arrays handed out so far were emptied. *)
Definition tampered (st : Store) : Store :=
  {| process_env := fun _ => None;
     arrays := map (fun _ => []) (arrays st);
     performed := performed st |}.

(** [new Groq({ apiKey: GROQ_API_KEY })] as the module evaluates it. *)
Definition new_client (sdk : Groq.Sdk) (server : TranslateServer)
  : Settled (Groq.Client sdk) :=
  Groq.construct sdk {| Groq.apiKey := Some (GROQ_API_KEY server) |}.

(** * Properties *)

(** ** The registry *)

Lemma lookup_name_None (langs : list LanguageType.Language) (wanted : string) :
  lookup_name langs wanted = None <->
  ~ In wanted (map LanguageType.id langs).
Proof.
  unfold lookup_name.
  induction langs as [| lang langs IH]; simpl.
  - split; [intros _ [] | reflexivity].
  - destruct (String.eqb_spec (LanguageType.id lang) wanted) as [Heq | Hne]; simpl.
    + split; [discriminate | intros H; exfalso; apply H; now left].
    + rewrite IH. split.
      * intros H [Hhd | Htl]; [now apply Hne | now apply H].
      * intros H Htl. apply H. now right.
Qed.

Lemma lookup_name_Some (langs : list LanguageType.Language) (wanted n : string) :
  lookup_name langs wanted = Some n ->
  In {| LanguageType.id := wanted; LanguageType.name := n |} langs.
Proof.
  unfold lookup_name.
  induction langs as [| [i m] langs IH]; simpl; [discriminate |].
  destruct (String.eqb_spec i wanted) as [Heq | Hne]; simpl.
  - intros H. injection H as <-. subst i. now left.
  - intros H. right. now apply IH.
Qed.

(** The two listings of the module agree on every identifier. *)
Lemma other_listing_same_ids :
  map LanguageType.id (LanguageTypeOtherListing.getSupportedInputLanguages tt)
  = map LanguageType.id (LanguageType.getSupportedInputLanguages tt) /\
  map LanguageType.id (LanguageTypeOtherListing.getSupportedOutputLanguages tt)
  = map LanguageType.id (LanguageType.getSupportedOutputLanguages tt).
Proof. split; reflexivity. Qed.

(** C5.  [getSupportedInputLanguages] returns four entries whose
    identifiers are, in order, auto, en, es, de; [getSupportedOutputLanguages]
    returns three entries whose identifiers are, in order, en, es, de; every
    output identifier is an input identifier, and auto is not an output
    identifier.  The functions take no input, so this holds of every call. *)
Theorem supported_languages_catalog :
  forall u v : unit,
    length (LanguageType.getSupportedInputLanguages u) = 4 /\
    map LanguageType.id (LanguageType.getSupportedInputLanguages u)
    = ["auto"; "en"; "es"; "de"] /\
    length (LanguageType.getSupportedOutputLanguages v) = 3 /\
    map LanguageType.id (LanguageType.getSupportedOutputLanguages v)
    = ["en"; "es"; "de"] /\
    incl (map LanguageType.id (LanguageType.getSupportedOutputLanguages v))
         (map LanguageType.id (LanguageType.getSupportedInputLanguages u)) /\
    ~ In "auto" (map LanguageType.id (LanguageType.getSupportedOutputLanguages v)).
Proof.
  intros u v. repeat split.
  - intros x Hx. simpl in *. tauto.
  - simpl. intros [H | [H | [H | []]]]; discriminate H.
Qed.

(** ** The translation service *)

Section ServiceFacts.

Variable sdk : Groq.Sdk.
Variable server : TranslateServer.

Lemma translateText_same (L inputText : string) (tr : Trace) :
  translateText sdk server L L inputText tr = (Fulfilled inputText, tr).
Proof.
  unfold translateText. rewrite String.eqb_refl. reflexivity.
Qed.

Lemma translateText_distinct (fromLanguageId toLanguageId inputText : string)
  (groq : Groq.Client sdk) (tr : Trace) :
  fromLanguageId <> toLanguageId ->
  new_client sdk server = Fulfilled groq ->
  translateText sdk server fromLanguageId toLanguageId inputText tr
  = (Fulfilled
       (settle_completion
          (Groq.chat_completions_create sdk groq
             (completion_request inputText
                (lookup_name (LanguageType.getSupportedInputLanguages tt)
                   fromLanguageId)
                (lookup_name (LanguageType.getSupportedOutputLanguages tt)
                   toLanguageId)))),
     (tr ++ call_events server fromLanguageId toLanguageId inputText)%list).
Proof.
  intros Hne Hnew.
  apply String.eqb_neq in Hne.
  unfold translateText. rewrite Hne.
  unfold new_client in Hnew.
  unfold bind, try_catch, perform, call_events. rewrite Hnew.
  repeat rewrite <- app_assoc. simpl app.
  destruct (Groq.chat_completions_create sdk groq _) as [result | e];
    [| reflexivity].
  unfold first_choice_content, settle_completion.
  destruct (Groq.Response.choices result) as [| c rest]; reflexivity.
Qed.

(** When the constructor throws, nothing catches it. *)
Lemma translateText_constructor_throws
  (fromLanguageId toLanguageId inputText : string) (e : JsError) (tr : Trace) :
  fromLanguageId <> toLanguageId ->
  new_client sdk server = Rejected e ->
  translateText sdk server fromLanguageId toLanguageId inputText tr
  = (Rejected e,
     (tr ++ [EvNewGroq {| Groq.apiKey := Some (GROQ_API_KEY server) |}])%list).
Proof.
  intros Hne Hnew.
  apply String.eqb_neq in Hne.
  unfold translateText. rewrite Hne.
  unfold new_client in Hnew.
  unfold bind, perform. rewrite Hnew. reflexivity.
Qed.

End ServiceFacts.

(** C1.  When the source and target identifiers are equal, the call is
    fulfilled with the input text itself and the sequence of operations is
    left as it was: no client is constructed, no registry is read and no
    request is sent.  This holds whatever the SDK would have done. *)
Theorem translateText_identity :
  forall (sdk : Groq.Sdk) (server : TranslateServer)
         (L inputText : string) (tr : Trace),
    translateText sdk server L L inputText tr = (Fulfilled inputText, tr).
Proof.
  intros. apply translateText_same.
Qed.

(** C2.  When the identifiers differ and the chat-completion request is
    rejected with any error, the call is fulfilled (not rejected) with the
    string "Error translating text". *)
Theorem translateText_request_error :
  forall (sdk : Groq.Sdk) (server : TranslateServer) (groq : Groq.Client sdk)
         (fromLanguageId toLanguageId inputText : string) (e : JsError)
         (tr : Trace),
    fromLanguageId <> toLanguageId ->
    new_client sdk server = Fulfilled groq ->
    Groq.chat_completions_create sdk groq
      (completion_request inputText
         (lookup_name (LanguageType.getSupportedInputLanguages tt) fromLanguageId)
         (lookup_name (LanguageType.getSupportedOutputLanguages tt) toLanguageId))
    = Rejected e ->
    translateText sdk server fromLanguageId toLanguageId inputText tr
    = (Fulfilled "Error translating text",
       (tr ++ call_events server fromLanguageId toLanguageId inputText)%list).
Proof.
  intros sdk server groq f t x e tr Hne Hnew Hcall.
  rewrite (translateText_distinct sdk server f t x groq tr Hne Hnew).
  rewrite Hcall. reflexivity.
Qed.

Lemma translateText_request_error_witness :
  "es" <> "en" /\
  translateText (stub_sdk (fun _ => Rejected (APIError 429 "rate limit")))
    demo_server "es" "en" "Hola" []
  = (Fulfilled "Error translating text", call_events demo_server "es" "en" "Hola").
Proof.
  split; [discriminate |].
  apply (translateText_request_error
           (stub_sdk (fun _ => Rejected (APIError 429 "rate limit")))
           demo_server "gsk_demo" "es" "en" "Hola" (APIError 429 "rate limit") []).
  - discriminate.
  - reflexivity.
  - reflexivity.
Defined.

(** C3.  When the identifiers differ, exactly one request is sent; its
    messages are the fixed ones followed by one user message, which is the
    only user message at the end of the sequence; that message is the input
    text, unmodified, then the source display name found in the input
    registry between [{{] and [}}], then the target display name found in the
    output registry between [[[] and []]]. *)
Theorem translateText_final_user_message :
  forall (sdk : Groq.Sdk) (server : TranslateServer) (groq : Groq.Client sdk)
         (fromLanguageId toLanguageId inputText : string) (tr : Trace),
    fromLanguageId <> toLanguageId ->
    new_client sdk server = Fulfilled groq ->
    exists request : Groq.ChatCompletionCreateParams,
      snd (translateText sdk server fromLanguageId toLanguageId inputText tr)
      = (tr ++ [ EvNewGroq {| Groq.apiKey := Some (GROQ_API_KEY server) |};
                 EvGetSupportedInputLanguages;
                 EvGetSupportedOutputLanguages;
                 EvChatCompletionsCreate request ])%list /\
      (forall fromName toName : string,
          lookup_name (LanguageType.getSupportedInputLanguages tt) fromLanguageId
          = Some fromName ->
          lookup_name (LanguageType.getSupportedOutputLanguages tt) toLanguageId
          = Some toName ->
          Groq.messages request
          = (few_shot ++
             [user_message
                (inputText ++ " {{" ++ fromName ++ "}} [[" ++ toName ++ "]]")])%list
          /\
          trailing_user_messages (Groq.messages request)
          = [user_message
               (inputText ++ " {{" ++ fromName ++ "}} [[" ++ toName ++ "]]")]).
Proof.
  intros sdk server groq f t x tr Hne Hnew.
  eexists. split.
  - rewrite (translateText_distinct sdk server f t x groq tr Hne Hnew).
    reflexivity.
  - intros fromName toName Hf Ht. rewrite Hf, Ht. split; reflexivity.
Qed.

Lemma translateText_final_user_message_witness :
  "auto" <> "de" /\
  exists request : Groq.ChatCompletionCreateParams,
    snd (translateText (stub_sdk (fun _ => Fulfilled (completion_of (Some "Wie geht es dir?"))))
           demo_server "auto" "de" "How are you?" [])
    = [ EvNewGroq {| Groq.apiKey := Some "gsk_demo" |};
        EvGetSupportedInputLanguages;
        EvGetSupportedOutputLanguages;
        EvChatCompletionsCreate request ] /\
    trailing_user_messages (Groq.messages request)
    = [user_message "How are you? {{Auto}} [[Deutsch]]"].
Proof.
  split; [discriminate |].
  destruct (translateText_final_user_message
              (stub_sdk (fun _ => Fulfilled (completion_of (Some "Wie geht es dir?"))))
              demo_server "gsk_demo" "auto" "de" "How are you?" [])
    as [request [Htrace Hshape]].
  - discriminate.
  - reflexivity.
  - exists request. split; [exact Htrace |].
    apply (Hshape "Auto" "Deutsch"); reflexivity.
Defined.

(** C4, as the code has it.  When the identifiers differ and one of them is
    not in its registry, the request is sent all the same and the call is
    fulfilled with a string; between the markers of a name that was not
    found, the final user message carries the text [undefined], which is what
    interpolating an absent value into a template literal yields. *)
Theorem translateText_lookup_miss :
  forall (sdk : Groq.Sdk) (server : TranslateServer) (groq : Groq.Client sdk)
         (fromLanguageId toLanguageId inputText : string) (tr : Trace),
    fromLanguageId <> toLanguageId ->
    new_client sdk server = Fulfilled groq ->
    ~ In fromLanguageId
        (map LanguageType.id (LanguageType.getSupportedInputLanguages tt)) \/
    ~ In toLanguageId
        (map LanguageType.id (LanguageType.getSupportedOutputLanguages tt)) ->
    exists (request : Groq.ChatCompletionCreateParams)
           (shownFrom shownTo out : string),
      translateText sdk server fromLanguageId toLanguageId inputText tr
      = (Fulfilled out,
         (tr ++ [ EvNewGroq {| Groq.apiKey := Some (GROQ_API_KEY server) |};
                  EvGetSupportedInputLanguages;
                  EvGetSupportedOutputLanguages;
                  EvChatCompletionsCreate request ])%list) /\
      Groq.messages request
      = (few_shot ++
         [user_message
            (inputText ++ " {{" ++ shownFrom ++ "}} [[" ++ shownTo ++ "]]")])%list /\
      (~ In fromLanguageId
           (map LanguageType.id (LanguageType.getSupportedInputLanguages tt)) ->
       shownFrom = "undefined") /\
      (~ In toLanguageId
           (map LanguageType.id (LanguageType.getSupportedOutputLanguages tt)) ->
       shownTo = "undefined") /\
      (forall n : string,
          lookup_name (LanguageType.getSupportedInputLanguages tt) fromLanguageId
          = Some n -> shownFrom = n) /\
      (forall n : string,
          lookup_name (LanguageType.getSupportedOutputLanguages tt) toLanguageId
          = Some n -> shownTo = n).
Proof.
  intros sdk server groq f t x tr Hne Hnew _.
  rewrite (translateText_distinct sdk server f t x groq tr Hne Hnew).
  eexists.
  exists (template_string
            (lookup_name (LanguageType.getSupportedInputLanguages tt) f)).
  exists (template_string
            (lookup_name (LanguageType.getSupportedOutputLanguages tt) t)).
  eexists.
  split; [reflexivity |].
  split; [reflexivity |].
  repeat split.
  - intros Hmiss. apply lookup_name_None in Hmiss. now rewrite Hmiss.
  - intros Hmiss. apply lookup_name_None in Hmiss. now rewrite Hmiss.
  - intros n Hn. now rewrite Hn.
  - intros n Hn. now rewrite Hn.
Qed.

Lemma translateText_lookup_miss_witness :
  "fr" <> "en" /\
  ~ In "fr" (map LanguageType.id (LanguageType.getSupportedInputLanguages tt)) /\
  exists (request : Groq.ChatCompletionCreateParams) (out : string),
    translateText (stub_sdk (fun _ => Fulfilled (completion_of (Some "Hi"))))
      demo_server "fr" "en" "Salut" []
    = (Fulfilled out,
       [ EvNewGroq {| Groq.apiKey := Some "gsk_demo" |};
         EvGetSupportedInputLanguages;
         EvGetSupportedOutputLanguages;
         EvChatCompletionsCreate request ]) /\
    Groq.messages request
    = (few_shot ++ [user_message "Salut {{undefined}} [[English]]"])%list.
Proof.
  assert (Hmiss : ~ In "fr"
            (map LanguageType.id (LanguageType.getSupportedInputLanguages tt))).
  { simpl. intros [H | [H | [H | [H | []]]]]; discriminate H. }
  split; [discriminate |]. split; [exact Hmiss |].
  destruct (translateText_lookup_miss
              (stub_sdk (fun _ => Fulfilled (completion_of (Some "Hi"))))
              demo_server "gsk_demo" "fr" "en" "Salut" [])
    as (request & shownFrom & shownTo & out & Hrun & Hmsgs & Hfrom & _ & _ & Hto).
  - discriminate.
  - reflexivity.
  - left. exact Hmiss.
  - exists request, out. split; [exact Hrun |].
    rewrite Hmsgs, (Hfrom Hmiss), (Hto "English" eq_refl). reflexivity.
Defined.

(** C4 as the specification words it fails: for the source identifier [fr],
    which no registry holds, the message that is sent reads
    [Salut {{undefined}} [[English]]], not [Salut {{}} [[English]]]. *)
Lemma translateText_lookup_miss_not_empty :
  "fr" <> "en" /\
  ~ In "fr" (map LanguageType.id (LanguageType.getSupportedInputLanguages tt)) /\
  snd (translateText (stub_sdk (fun _ => Fulfilled (completion_of (Some "Hi"))))
         demo_server "fr" "en" "Salut" [])
  = [ EvNewGroq {| Groq.apiKey := Some "gsk_demo" |};
      EvGetSupportedInputLanguages;
      EvGetSupportedOutputLanguages;
      EvChatCompletionsCreate
        {| Groq.messages :=
             (few_shot ++ [user_message "Salut {{undefined}} [[English]]"])%list;
           Groq.model := "llama3-70b-8192" |} ] /\
  snd (translateText (stub_sdk (fun _ => Fulfilled (completion_of (Some "Hi"))))
         demo_server "fr" "en" "Salut" [])
  <> [ EvNewGroq {| Groq.apiKey := Some "gsk_demo" |};
       EvGetSupportedInputLanguages;
       EvGetSupportedOutputLanguages;
       EvChatCompletionsCreate
         {| Groq.messages :=
              (few_shot ++ [user_message "Salut {{}} [[English]]"])%list;
            Groq.model := "llama3-70b-8192" |} ].
Proof.
  split; [discriminate |].
  split.
  - simpl. intros [H | [H | [H | [H | []]]]]; discriminate H.
  - split; [reflexivity |].
    intros H. cbv in H. discriminate H.
Qed.

(** C6.  When the identifiers differ, the request is fulfilled and the
    response has a first choice, the call is fulfilled with a string: the
    content of that choice when it is a string, and the empty string when
    the content is absent (or is the empty string). *)
Theorem translateText_result_extraction :
  forall (sdk : Groq.Sdk) (server : TranslateServer) (groq : Groq.Client sdk)
         (fromLanguageId toLanguageId inputText : string) (tr : Trace)
         (result : Groq.Response.ChatCompletion)
         (first : Groq.Response.Choice) (rest : list Groq.Response.Choice),
    fromLanguageId <> toLanguageId ->
    new_client sdk server = Fulfilled groq ->
    Groq.chat_completions_create sdk groq
      (completion_request inputText
         (lookup_name (LanguageType.getSupportedInputLanguages tt) fromLanguageId)
         (lookup_name (LanguageType.getSupportedOutputLanguages tt) toLanguageId))
    = Fulfilled result ->
    Groq.Response.choices result = first :: rest ->
    exists out : string,
      fst (translateText sdk server fromLanguageId toLanguageId inputText tr)
      = Fulfilled out /\
      (forall content : string,
          Groq.Response.content (Groq.Response.message first) = Some content ->
          out = content) /\
      (Groq.Response.content (Groq.Response.message first) = None \/
       Groq.Response.content (Groq.Response.message first) = Some EmptyString ->
       out = EmptyString).
Proof.
  intros sdk server groq f t x tr result first rest Hne Hnew Hcall Hchoices.
  rewrite (translateText_distinct sdk server f t x groq tr Hne Hnew).
  rewrite Hcall. unfold settle_completion. rewrite Hchoices.
  eexists. split; [reflexivity |]. split.
  - intros content Hc. rewrite Hc. simpl.
    destruct (String.eqb_spec content EmptyString) as [-> | _]; reflexivity.
  - intros [Hc | Hc]; rewrite Hc; reflexivity.
Qed.

Lemma translateText_result_extraction_witness :
  "en" <> "es" /\
  exists out : string,
    fst (translateText (stub_sdk (fun _ => Fulfilled (completion_of None)))
           demo_server "en" "es" "Good morning" [])
    = Fulfilled out /\ out = EmptyString.
Proof.
  split; [discriminate |].
  destruct (translateText_result_extraction
              (stub_sdk (fun _ => Fulfilled (completion_of None)))
              demo_server "gsk_demo" "en" "es" "Good morning" []
              (completion_of None)
              {| Groq.Response.message := {| Groq.Response.content := None |} |}
              [])
    as (out & Hrun & _ & Hempty).
  - discriminate.
  - reflexivity.
  - reflexivity.
  - reflexivity.
  - exists out. split; [exact Hrun |]. apply Hempty. now left.
Defined.

(** C7.  [translateText "es" "en" "Hola mundo"] sends one request whose last
    message is the user message [Hola mundo {{Español}} [[English]]], and
    when the request is answered with the content [Hello world] the call is
    fulfilled with [Hello world]. *)
Theorem translateText_hola_mundo :
  forall (sdk : Groq.Sdk) (server : TranslateServer) (groq : Groq.Client sdk)
         (tr : Trace),
    new_client sdk server = Fulfilled groq ->
    (forall request : Groq.ChatCompletionCreateParams,
        Groq.chat_completions_create sdk groq request
        = Fulfilled (completion_of (Some "Hello world"))) ->
    exists request : Groq.ChatCompletionCreateParams,
      translateText sdk server "es" "en" "Hola mundo" tr
      = (Fulfilled "Hello world",
         (tr ++ [ EvNewGroq {| Groq.apiKey := Some (GROQ_API_KEY server) |};
                  EvGetSupportedInputLanguages;
                  EvGetSupportedOutputLanguages;
                  EvChatCompletionsCreate request ])%list) /\
      Groq.messages request
      = (few_shot ++ [user_message "Hola mundo {{Español}} [[English]]"])%list /\
      last (Groq.messages request) (user_message EmptyString)
      = user_message "Hola mundo {{Español}} [[English]]".
Proof.
  intros sdk server groq tr Hnew Hreply.
  assert (Hne : "es" <> "en") by discriminate.
  rewrite (translateText_distinct sdk server "es" "en" "Hola mundo" groq tr
             Hne Hnew).
  rewrite Hreply.
  eexists. split; [reflexivity |]. split; reflexivity.
Qed.

Lemma translateText_hola_mundo_witness :
  exists request : Groq.ChatCompletionCreateParams,
    translateText (stub_sdk (fun _ => Fulfilled (completion_of (Some "Hello world"))))
      demo_server "es" "en" "Hola mundo" []
    = (Fulfilled "Hello world",
       [ EvNewGroq {| Groq.apiKey := Some "gsk_demo" |};
         EvGetSupportedInputLanguages;
         EvGetSupportedOutputLanguages;
         EvChatCompletionsCreate request ]) /\
    last (Groq.messages request) (user_message EmptyString)
    = user_message "Hola mundo {{Español}} [[English]]".
Proof.
  destruct (translateText_hola_mundo
              (stub_sdk (fun _ => Fulfilled (completion_of (Some "Hello world"))))
              demo_server "gsk_demo" [])
    as (request & Hrun & _ & Hlast).
  - reflexivity.
  - intros request. reflexivity.
  - exists request. split; [exact Hrun | exact Hlast].
Defined.

(** ** The service over the store *)

Lemma nth_error_snoc {A : Type} (l : list A) (x : A) :
  nth_error (l ++ [x]) (length l) = Some x.
Proof.
  rewrite nth_error_app2 by apply Nat.le_refl.
  rewrite Nat.sub_diag. reflexivity.
Qed.

(** The answer of the service in the first embedding is [outcome_of_call]. *)
Lemma translateText_outcome :
  forall (sdk : Groq.Sdk) (server : TranslateServer)
         (fromLanguageId toLanguageId inputText : string) (tr : Trace),
    fst (translateText sdk server fromLanguageId toLanguageId inputText tr)
    = outcome_of_call sdk server fromLanguageId toLanguageId inputText.
Proof.
  intros sdk server f t x tr. unfold outcome_of_call.
  destruct (String.eqb_spec f t) as [-> | Hne].
  - now rewrite translateText_same.
  - destruct (Groq.construct sdk {| Groq.apiKey := Some (GROQ_API_KEY server) |})
      as [groq | e] eqn:Hnew.
    + now rewrite (translateText_distinct sdk server f t x groq tr Hne Hnew).
    + now rewrite (translateText_constructor_throws sdk server f t x e tr Hne Hnew).
Qed.

(** Over the store the service answers as in the first embedding, performs
    the same operations, leaves [process.env] as it was and only adds the
    arrays it allocates after the existing ones. *)
Lemma translateText_in_store :
  forall (sdk : Groq.Sdk) (server : TranslateServer)
         (fromLanguageId toLanguageId inputText : string) (st : Store),
    InStore.translateText sdk server fromLanguageId toLanguageId inputText st
    = (outcome_of_call sdk server fromLanguageId toLanguageId inputText,
       {| process_env := process_env st;
          arrays :=
            (arrays st
             ++ allocated_arrays sdk server fromLanguageId toLanguageId)%list;
          performed :=
            snd (translateText sdk server fromLanguageId toLanguageId inputText
                   (performed st)) |}).
Proof.
  intros sdk server f t x [env arrs tr].
  unfold InStore.translateText, outcome_of_call, allocated_arrays. simpl.
  destruct (String.eqb_spec f t) as [-> | Hne].
  - rewrite translateText_same, app_nil_r. reflexivity.
  - destruct (Groq.construct sdk {| Groq.apiKey := Some (GROQ_API_KEY server) |})
      as [groq | e] eqn:Hnew.
    + rewrite (translateText_distinct sdk server f t x groq tr Hne Hnew).
      unfold InStore.bind, InStore.try_catch, InStore.perform,
        InStore.getSupportedInputLanguages, InStore.getSupportedOutputLanguages,
        InStore.new_array, InStore.find_name, InStore.bind. simpl.
      rewrite nth_error_snoc. simpl.
      rewrite nth_error_snoc. simpl.
      unfold call_events. repeat rewrite <- app_assoc. simpl.
      destruct (Groq.chat_completions_create sdk groq _) as [result | e];
        [| reflexivity].
      unfold InStore.first_choice_content, settle_completion.
      destruct (Groq.Response.choices result) as [| c rest]; reflexivity.
    + rewrite (translateText_constructor_throws sdk server f t x e tr Hne Hnew).
      unfold InStore.bind, InStore.perform. simpl. rewrite app_nil_r.
      reflexivity.
Qed.

(** C9.  The service is run over a store that holds [process.env] and the
    arrays handed out by the registry functions.  With the SDK a fixed
    function of the request, a call answers what [outcome_of_call] computes
    from the SDK, the key of the module and the three arguments; it answers
    the same from any other store, and again when it is repeated after the
    first call, whatever was done to the store in between.  The call leaves
    [process.env] as it found it and changes no array that existed before
    it. *)
Theorem translateText_keeps_no_state :
  forall (sdk : Groq.Sdk) (server : TranslateServer)
         (fromLanguageId toLanguageId inputText : string) (st other : Store),
    fst (InStore.translateText sdk server fromLanguageId toLanguageId
           inputText st)
    = outcome_of_call sdk server fromLanguageId toLanguageId inputText /\
    fst (InStore.translateText sdk server fromLanguageId toLanguageId
           inputText other)
    = fst (InStore.translateText sdk server fromLanguageId toLanguageId
             inputText st) /\
    (forall between : Store -> Store,
        fst (InStore.translateText sdk server fromLanguageId toLanguageId
               inputText
               (between
                  (snd (InStore.translateText sdk server fromLanguageId
                          toLanguageId inputText st))))
        = fst (InStore.translateText sdk server fromLanguageId toLanguageId
                 inputText st)) /\
    process_env
      (snd (InStore.translateText sdk server fromLanguageId toLanguageId
              inputText st))
    = process_env st /\
    (forall (a : Address) (langs : list LanguageType.Language),
        nth_error (arrays st) a = Some langs ->
        nth_error
          (arrays
             (snd (InStore.translateText sdk server fromLanguageId
                     toLanguageId inputText st))) a
        = Some langs) /\
    performed
      (snd (InStore.translateText sdk server fromLanguageId toLanguageId
              inputText st))
    = snd (translateText sdk server fromLanguageId toLanguageId inputText
             (performed st)).
Proof.
  intros sdk server f t x st other.
  rewrite (translateText_in_store sdk server f t x st).
  rewrite (translateText_in_store sdk server f t x other).
  cbn [fst snd process_env arrays performed].
  split; [reflexivity |]. split; [reflexivity |]. split.
  - intros between. now rewrite translateText_in_store.
  - split; [reflexivity |]. split; [| reflexivity].
    intros a langs Ha. rewrite nth_error_app1; [exact Ha |].
    apply nth_error_Some. rewrite Ha. discriminate.
Qed.

(** A run of the above: the module is loaded, then the key is deleted from
    the environment and the arrays handed out are emptied between two
    calls, and the second call answers as the first. *)
Example translateText_after_tampering :
  let sdk := stub_sdk (fun _ => Fulfilled (completion_of (Some "Hello world"))) in
  let st := {| process_env := demo_env; arrays := []; performed := [] |} in
  InStore.load_module st = (Fulfilled demo_server, st) /\
  fst (InStore.translateText sdk demo_server "es" "en" "Hola mundo" st)
  = Fulfilled "Hello world" /\
  fst (InStore.translateText sdk demo_server "es" "en" "Hola mundo"
         (tampered
            (snd (InStore.translateText sdk demo_server "es" "en" "Hola mundo"
                    st))))
  = Fulfilled "Hello world".
Proof. repeat split; reflexivity. Qed.




Lemma serve_total :
  forall (sdk : Groq.Sdk) (server : TranslateServer) (groq : Groq.Client sdk),
    new_client sdk server = Fulfilled groq ->
    forall (requests : list TranslationRequest) (tr : Trace),
    exists (outs : list string) (tr' : Trace),
      serve sdk server requests tr = (Fulfilled outs, tr') /\
      length outs = length requests.
Proof.
  intros sdk server groq Hnew requests.
  induction requests as [| r rest IH]; intros tr.
  - exists [], tr. split; reflexivity.
  - assert (Hcall : exists (out : string) (tr1 : Trace),
               translateText sdk server (sourceLanguageId r)
                 (targetLanguageId r) (text r) tr = (Fulfilled out, tr1)).
    { destruct (String.eqb_spec (sourceLanguageId r) (targetLanguageId r))
        as [Heq | Hne].
      - rewrite Heq. do 2 eexists. apply translateText_same.
      - do 2 eexists.
        apply (translateText_distinct sdk server _ _ _ groq tr Hne Hnew). }
    destruct Hcall as (out & tr1 & Hout).
    destruct (IH tr1) as (outs & tr2 & Houts & Hlen).
    exists (out :: outs), tr2. split.
    + simpl. unfold bind. rewrite Hout, Houts. reflexivity.
    + simpl. now rewrite Hlen.
Qed.

(** C8.  Without [GROQ_API_KEY] in the environment the module fails while
    it is being loaded, with the error [Missing env: GROQ_API_KEY], and the
    process ends there with no operation performed for any request.  With
    the key present the module loads, keeps that key, and (the constructor
    accepting it) every request is then answered with a string: none is
    rejected. *)
Theorem missing_credential_is_fatal_at_startup :
  forall (env : ProcessEnv),
    (env "GROQ_API_KEY" = None ->
     module_init env = Rejected (Error "Missing env: GROQ_API_KEY") /\
     forall (sdk : Groq.Sdk) (requests : list TranslationRequest) (tr : Trace),
       run_process sdk env requests tr
       = (Rejected (Error "Missing env: GROQ_API_KEY"), tr)) /\
    (forall key : string,
        env "GROQ_API_KEY" = Some key ->
        module_init env = Fulfilled {| GROQ_API_KEY := key |} /\
        forall (sdk : Groq.Sdk) (groq : Groq.Client sdk),
          new_client sdk {| GROQ_API_KEY := key |} = Fulfilled groq ->
          forall (requests : list TranslationRequest) (tr : Trace),
          exists (outs : list string) (tr' : Trace),
            run_process sdk env requests tr = (Fulfilled outs, tr') /\
            length outs = length requests).
Proof.
  intros env. split.
  - intros Hnone. unfold run_process, module_init. rewrite Hnone.
    split; reflexivity.
  - intros key Hkey. unfold run_process, module_init. rewrite Hkey.
    split; [reflexivity |].
    intros sdk groq Hnew requests tr.
    apply (serve_total sdk _ groq Hnew).
Qed.

Lemma missing_credential_is_fatal_at_startup_witness :
  run_process (stub_sdk (fun _ => Fulfilled (completion_of (Some "Hello"))))
    empty_env
    [ {| sourceLanguageId := "es"; targetLanguageId := "en"; text := "Hola" |} ]
    []
  = (Rejected (Error "Missing env: GROQ_API_KEY"), []) /\
  exists (outs : list string) (tr' : Trace),
    run_process (stub_sdk (fun _ => Fulfilled (completion_of (Some "Hello"))))
      demo_env
      [ {| sourceLanguageId := "es"; targetLanguageId := "en"; text := "Hola" |} ]
      []
    = (Fulfilled outs, tr') /\
    length outs = 1.
Proof.
  split.
  - apply (proj1 (missing_credential_is_fatal_at_startup empty_env)).
    reflexivity.
  - apply (proj2 (proj2 (missing_credential_is_fatal_at_startup demo_env)
                    "gsk_demo" eq_refl)
             (stub_sdk (fun _ => Fulfilled (completion_of (Some "Hello"))))
             "gsk_demo" eq_refl).
Defined.

(** ** Further facts about the boundary of the [try] block *)

(** A fulfilled request whose response has no choice ends in the handler:
    reading [choices[0].message] throws inside the [try] block. *)
Lemma translateText_no_choice :
  forall (sdk : Groq.Sdk) (server : TranslateServer) (groq : Groq.Client sdk)
         (fromLanguageId toLanguageId inputText : string) (tr : Trace),
    fromLanguageId <> toLanguageId ->
    new_client sdk server = Fulfilled groq ->
    Groq.chat_completions_create sdk groq
      (completion_request inputText
         (lookup_name (LanguageType.getSupportedInputLanguages tt) fromLanguageId)
         (lookup_name (LanguageType.getSupportedOutputLanguages tt) toLanguageId))
    = Fulfilled {| Groq.Response.choices := [] |} ->
    fst (translateText sdk server fromLanguageId toLanguageId inputText tr)
    = Fulfilled "Error translating text".
Proof.
  intros sdk server groq f t x tr Hne Hnew Hcall.
  rewrite (translateText_distinct sdk server f t x groq tr Hne Hnew).
  rewrite Hcall. reflexivity.
Qed.

(** The worked case with automatic detection of the source language. *)
Example translateText_auto_de :
  translateText (stub_sdk (fun _ => Fulfilled (completion_of (Some "Wie geht es dir?"))))
    demo_server "auto" "de" "How are you?" []
  = (Fulfilled "Wie geht es dir?",
     [ EvNewGroq {| Groq.apiKey := Some "gsk_demo" |};
       EvGetSupportedInputLanguages;
       EvGetSupportedOutputLanguages;
       EvChatCompletionsCreate
         {| Groq.messages :=
              (few_shot ++ [user_message "How are you? {{Auto}} [[Deutsch]]"])%list;
            Groq.model := "llama3-70b-8192" |} ]).
Proof. reflexivity. Qed.

(** An identifier of the input type is always found, and so is one of the
    output type: within the declared parameter types no lookup misses. *)
Lemma typed_identifiers_resolve :
  forall fromLanguageId toLanguageId : string,
    LanguageType.LanguageInputId fromLanguageId ->
    LanguageType.LanguageOutputId toLanguageId ->
    (exists n, lookup_name (LanguageType.getSupportedInputLanguages tt)
                 fromLanguageId = Some n) /\
    (exists n, lookup_name (LanguageType.getSupportedOutputLanguages tt)
                 toLanguageId = Some n).
Proof.
  intros f t Hf Ht. split.
  - destruct (lookup_name (LanguageType.getSupportedInputLanguages tt) f)
      as [n |] eqn:Hl; [now exists n |].
    apply lookup_name_None in Hl. exfalso. apply Hl. exact Hf.
  - destruct (lookup_name (LanguageType.getSupportedOutputLanguages tt) t)
      as [n |] eqn:Hl; [now exists n |].
    apply lookup_name_None in Hl. exfalso. apply Hl. exact Ht.
Qed.

(** * The routes and the rest of the service *)

(** ** Lengths and schemas *)

Lemma utf16_length_app (a b : string) :
  utf16_length (a ++ b) = utf16_length a + utf16_length b.
Proof.
  induction a as [| c a IH]; simpl; [reflexivity |].
  rewrite IH. apply Nat.add_assoc.
Qed.

Lemma utf16_length_positive (t : string) :
  0 < utf16_length t -> t <> EmptyString.
Proof.
  intros H ->. simpl in H. lia.
Qed.

Lemma existsb_eqb_In (s : string) (values : list string) :
  existsb (String.eqb s) values = true <-> In s values.
Proof.
  rewrite existsb_exists. split.
  - intros [x [Hin Heq]]. apply String.eqb_eq in Heq. now subst x.
  - intros Hin. exists s. split; [exact Hin | apply String.eqb_refl].
Qed.

Lemma enum_accepts (values : list string) (s : string) :
  In s values -> Zod.enum values (Some s) = Zod.success s.
Proof.
  intros Hin. unfold Zod.enum.
  now rewrite (proj2 (existsb_eqb_In s values) Hin).
Qed.

Lemma enum_refuses (values : list string) (v : option string) :
  (forall s, v = Some s -> ~ In s values) ->
  exists issues, Zod.enum values v = Zod.error issues /\ issues <> [].
Proof.
  intros Hout. destruct v as [s |]; simpl.
  - destruct (existsb (String.eqb s) values) eqn:Hex.
    + apply existsb_eqb_In in Hex. now destruct (Hout s eq_refl).
    + eexists. split; [reflexivity | discriminate].
  - eexists. split; [reflexivity | discriminate].
Qed.

Lemma string_min_max_accepts (req short long : string) (lo hi : nat) (t : string) :
  lo <= utf16_length t <= hi ->
  Zod.string_min_max req lo short hi long (Some t) = Zod.success t.
Proof.
  intros [Hlo Hhi]. unfold Zod.string_min_max.
  rewrite (proj2 (Nat.ltb_ge _ _) Hlo), (proj2 (Nat.ltb_ge _ _) Hhi).
  reflexivity.
Qed.

Lemma string_min_max_refuses (req short long : string) (lo hi : nat)
  (v : option string) :
  (forall t, v = Some t -> utf16_length t < lo \/ hi < utf16_length t) ->
  exists issues,
    Zod.string_min_max req lo short hi long v = Zod.error issues /\ issues <> [].
Proof.
  intros Hbad. destruct v as [t |]; simpl.
  - destruct (Hbad t eq_refl) as [Hlo | Hhi].
    + rewrite (proj2 (Nat.ltb_lt _ _) Hlo). simpl.
      eexists. split; [reflexivity | discriminate].
    + rewrite (proj2 (Nat.ltb_lt _ _) Hhi).
      destruct (utf16_length t <? lo)%nat; simpl;
        eexists; (split; [reflexivity | discriminate]).
  - eexists. split; [reflexivity | discriminate].
Qed.

Lemma strip_empty_keeps (v : option string) (t : string) :
  strip_empty v = Some t -> v = Some t.
Proof.
  destruct v as [s |]; simpl; [| discriminate].
  destruct (s =? EmptyString); [discriminate | trivial].
Qed.

Lemma strip_empty_long (t : string) :
  0 < utf16_length t -> strip_empty (Some t) = Some t.
Proof.
  intros H. simpl.
  destruct (String.eqb_spec t EmptyString) as [-> | _]; [| reflexivity].
  simpl in H. lia.
Qed.

Lemma default_enum_accepts (d : string) (values : list string)
  (v : option string) :
  In (submitted_or d v) values ->
  Zod.default d (Zod.enum values) (strip_empty v)
  = Zod.success (submitted_or d v).
Proof.
  unfold submitted_or, Zod.default.
  destruct (strip_empty v) as [s |]; intros Hin; now apply enum_accepts.
Qed.

Lemma default_enum_refuses (d : string) (values : list string)
  (v : option string) :
  ~ In (submitted_or d v) values ->
  exists issues,
    Zod.default d (Zod.enum values) (strip_empty v) = Zod.error issues.
Proof.
  unfold submitted_or, Zod.default.
  destruct (strip_empty v) as [s |]; intros Hout.
  - destruct (enum_refuses values (Some s)) as (issues & H & _).
    + intros s' [= <-]. exact Hout.
    + now exists issues.
  - destruct (enum_refuses values (Some d)) as (issues & H & _).
    + intros s' [= <-]. exact Hout.
    + now exists issues.
Qed.

(** An identifier of the declared type is found with a name the registry
    lists under it. *)
Lemma input_identifier_listed (i : string) :
  LanguageType.LanguageInputId i ->
  exists n,
    lookup_name (LanguageType.getSupportedInputLanguages tt) i = Some n /\
    In {| LanguageType.id := i; LanguageType.name := n |}
       (LanguageType.getSupportedInputLanguages tt).
Proof.
  intros Hi.
  destruct (lookup_name (LanguageType.getSupportedInputLanguages tt) i)
    as [n |] eqn:Hl.
  - exists n. split; [reflexivity | now apply lookup_name_Some].
  - apply lookup_name_None in Hl. now destruct (Hl Hi).
Qed.

Lemma output_identifier_listed (o : string) :
  LanguageType.LanguageOutputId o ->
  exists n,
    lookup_name (LanguageType.getSupportedOutputLanguages tt) o = Some n /\
    In {| LanguageType.id := o; LanguageType.name := n |}
       (LanguageType.getSupportedOutputLanguages tt).
Proof.
  intros Ho.
  destruct (lookup_name (LanguageType.getSupportedOutputLanguages tt) o)
    as [n |] eqn:Hl.
  - exists n. split; [reflexivity | now apply lookup_name_Some].
  - apply lookup_name_None in Hl. now destruct (Hl Ho).
Qed.

(** ** The loader that reads the query string *)

Lemma languages_accepted (payload : Payload) :
  LanguageType.LanguageInputId (submitted_or "auto" (payload "inputLanguage")) ->
  LanguageType.LanguageOutputId (submitted_or "en" (payload "outputLanguage")) ->
  parseWithZod payload IndexRoute.languageSchema
  = Zod.success
      {| IndexRoute.Languages.inputLanguage :=
           submitted_or "auto" (payload "inputLanguage");
         IndexRoute.Languages.outputLanguage :=
           submitted_or "en" (payload "outputLanguage") |}.
Proof.
  intros Hi Ho. unfold parseWithZod, IndexRoute.languageSchema.
  rewrite (default_enum_accepts "auto" _ _ Hi).
  rewrite (default_enum_accepts "en" _ _ Ho).
  reflexivity.
Qed.

Lemma languages_refused (payload : Payload) :
  ~ (LanguageType.LanguageInputId (submitted_or "auto" (payload "inputLanguage")) /\
     LanguageType.LanguageOutputId (submitted_or "en" (payload "outputLanguage"))) ->
  exists issues,
    parseWithZod payload IndexRoute.languageSchema = Zod.error issues.
Proof.
  intros Hbad. unfold parseWithZod, IndexRoute.languageSchema.
  destruct (in_dec string_dec (submitted_or "auto" (payload "inputLanguage"))
              ["auto"; "en"; "es"; "de"]) as [Hi | Hi].
  - rewrite (default_enum_accepts "auto" _ _ Hi).
    destruct (default_enum_refuses "en" ["en"; "es"; "de"]
                (payload "outputLanguage")) as (issues & ->).
    + intros Ho. apply Hbad. now split.
    + eexists. reflexivity.
  - destruct (default_enum_refuses "auto" _ _ Hi) as (issues & ->).
    destruct (Zod.default "en" (Zod.enum ["en"; "es"; "de"])
                (strip_empty (payload "outputLanguage")));
      eexists; reflexivity.
Qed.

Lemma text_accepted (payload : Payload) (t : string) :
  payload "inputText" = Some t ->
  3 <= utf16_length t <= 200 ->
  parseWithZod payload IndexRoute.translateTextSchema = Zod.success t.
Proof.
  intros Ht Hlen. unfold parseWithZod, IndexRoute.translateTextSchema.
  rewrite Ht, strip_empty_long by lia.
  now apply string_min_max_accepts.
Qed.

Lemma text_refused (payload : Payload) :
  (forall t, payload "inputText" = Some t ->
             utf16_length t < 3 \/ 200 < utf16_length t) ->
  exists issues,
    parseWithZod payload IndexRoute.translateTextSchema = Zod.error issues.
Proof.
  intros Hbad. unfold parseWithZod, IndexRoute.translateTextSchema.
  destruct (string_min_max_refuses "Provide a text"
              "Provide a text at least of 3 characters"
              "Provide a text at max of 50 characters" 3 200
              (strip_empty (payload "inputText"))) as (issues & -> & _).
  - intros t Ht. apply Hbad. now apply strip_empty_keeps.
  - now exists issues.
Qed.

(** X1.  When the language pair is accepted and the text is missing, empty,
    shorter than 3 code units or longer than 200, the loader answers with
    the two catalogues, the pair and an empty output text, and does nothing
    beyond reading the catalogues: no client is built and no request is
    sent. *)
Theorem loader_refused_text_sends_nothing :
  forall (sdk : Groq.Sdk) (server : TranslateServer) (payload : Payload)
         (tr : Trace),
    LanguageType.LanguageInputId (submitted_or "auto" (payload "inputLanguage")) ->
    LanguageType.LanguageOutputId (submitted_or "en" (payload "outputLanguage")) ->
    (forall t, payload "inputText" = Some t ->
               utf16_length t < 3 \/ 200 < utf16_length t) ->
    IndexRoute.loader sdk server payload tr
    = (Fulfilled
         {| IndexRoute.supportedInputLanguages :=
              LanguageType.getSupportedInputLanguages tt;
            IndexRoute.supportedOutputLanguages :=
              LanguageType.getSupportedOutputLanguages tt;
            IndexRoute.inputLanguage :=
              submitted_or "auto" (payload "inputLanguage");
            IndexRoute.outputLanguage :=
              submitted_or "en" (payload "outputLanguage");
            IndexRoute.outputText := EmptyString |},
       (tr ++ registry_reads)%list).
Proof.
  intros sdk server payload tr Hi Ho Hbad.
  destruct (text_refused payload Hbad) as (issues & Htext).
  unfold IndexRoute.loader, bind, perform.
  rewrite (languages_accepted payload Hi Ho), Htext.
  unfold ret, registry_reads. rewrite <- app_assoc. reflexivity.
Qed.

Lemma loader_refused_text_sends_nothing_witness :
  IndexRoute.loader (stub_sdk (fun _ => Fulfilled (completion_of (Some "Hi"))))
    demo_server (payload_of [("outputLanguage", "de"); ("inputText", "ab")]) []
  = (Fulfilled
       {| IndexRoute.supportedInputLanguages :=
            LanguageType.getSupportedInputLanguages tt;
          IndexRoute.supportedOutputLanguages :=
            LanguageType.getSupportedOutputLanguages tt;
          IndexRoute.inputLanguage := "auto";
          IndexRoute.outputLanguage := "de";
          IndexRoute.outputText := EmptyString |},
     registry_reads).
Proof.
  apply (loader_refused_text_sends_nothing
           (stub_sdk (fun _ => Fulfilled (completion_of (Some "Hi"))))
           demo_server
           (payload_of [("outputLanguage", "de"); ("inputText", "ab")]) []).
  - cbv. auto.
  - cbv. auto.
  - intros t [= <-]. left. simpl. lia.
Defined.

(** X2.  When the language pair is accepted, its two identifiers differ, the
    text has between 3 and 200 code units and the client can be built, the
    loader sends exactly one request; the names between the markers of its
    last message are names the catalogues list under the two identifiers
    (never the text of an absent value), and the output text is what the
    service makes of the answer. *)
Theorem loader_translates_with_listed_names :
  forall (sdk : Groq.Sdk) (server : TranslateServer) (groq : Groq.Client sdk)
         (payload : Payload) (t : string) (tr : Trace),
    LanguageType.LanguageInputId (submitted_or "auto" (payload "inputLanguage")) ->
    LanguageType.LanguageOutputId (submitted_or "en" (payload "outputLanguage")) ->
    submitted_or "auto" (payload "inputLanguage")
    <> submitted_or "en" (payload "outputLanguage") ->
    payload "inputText" = Some t ->
    3 <= utf16_length t <= 200 ->
    new_client sdk server = Fulfilled groq ->
    exists fromName toName : string,
      In {| LanguageType.id := submitted_or "auto" (payload "inputLanguage");
            LanguageType.name := fromName |}
         (LanguageType.getSupportedInputLanguages tt) /\
      In {| LanguageType.id := submitted_or "en" (payload "outputLanguage");
            LanguageType.name := toName |}
         (LanguageType.getSupportedOutputLanguages tt) /\
      IndexRoute.loader sdk server payload tr
      = (Fulfilled
           {| IndexRoute.supportedInputLanguages :=
                LanguageType.getSupportedInputLanguages tt;
              IndexRoute.supportedOutputLanguages :=
                LanguageType.getSupportedOutputLanguages tt;
              IndexRoute.inputLanguage :=
                submitted_or "auto" (payload "inputLanguage");
              IndexRoute.outputLanguage :=
                submitted_or "en" (payload "outputLanguage");
              IndexRoute.outputText :=
                settle_completion
                  (Groq.chat_completions_create sdk groq
                     (completion_request t (Some fromName) (Some toName))) |},
         (tr ++ registry_reads ++
          [ EvNewGroq {| Groq.apiKey := Some (GROQ_API_KEY server) |};
            EvGetSupportedInputLanguages;
            EvGetSupportedOutputLanguages;
            EvChatCompletionsCreate
              (completion_request t (Some fromName) (Some toName)) ])%list).
Proof.
  intros sdk server groq payload t tr Hi Ho Hne Ht Hlen Hnew.
  destruct (input_identifier_listed _ Hi) as (fromName & Hfrom & Hin).
  destruct (output_identifier_listed _ Ho) as (toName & Hto & Hout).
  exists fromName, toName. split; [exact Hin |]. split; [exact Hout |].
  unfold IndexRoute.loader, bind, perform.
  rewrite (languages_accepted payload Hi Ho), (text_accepted payload t Ht Hlen).
  cbv beta iota zeta. simpl IndexRoute.Languages.inputLanguage.
  simpl IndexRoute.Languages.outputLanguage.
  rewrite (translateText_distinct sdk server _ _ t groq _ Hne Hnew).
  unfold call_events. rewrite Hfrom, Hto.
  unfold ret, registry_reads. repeat rewrite <- app_assoc. reflexivity.
Qed.

Lemma loader_translates_with_listed_names_witness :
  exists fromName toName : string,
    In {| LanguageType.id := "es"; LanguageType.name := fromName |}
       (LanguageType.getSupportedInputLanguages tt) /\
    In {| LanguageType.id := "en"; LanguageType.name := toName |}
       (LanguageType.getSupportedOutputLanguages tt) /\
    IndexRoute.loader
      (stub_sdk (fun _ => Fulfilled (completion_of (Some "Hello world"))))
      demo_server
      (payload_of [("inputLanguage", "es"); ("inputText", "Hola mundo")]) []
    = (Fulfilled
         {| IndexRoute.supportedInputLanguages :=
              LanguageType.getSupportedInputLanguages tt;
            IndexRoute.supportedOutputLanguages :=
              LanguageType.getSupportedOutputLanguages tt;
            IndexRoute.inputLanguage := "es";
            IndexRoute.outputLanguage := "en";
            IndexRoute.outputText := "Hello world" |},
       (registry_reads ++
        [ EvNewGroq {| Groq.apiKey := Some "gsk_demo" |};
          EvGetSupportedInputLanguages;
          EvGetSupportedOutputLanguages;
          EvChatCompletionsCreate
            (completion_request "Hola mundo" (Some fromName) (Some toName)) ])%list).
Proof.
  apply (loader_translates_with_listed_names
           (stub_sdk (fun _ => Fulfilled (completion_of (Some "Hello world"))))
           demo_server "gsk_demo"
           (payload_of [("inputLanguage", "es"); ("inputText", "Hola mundo")])
           "Hola mundo" []).
  - cbv. auto.
  - cbv. auto.
  - discriminate.
  - reflexivity.
  - simpl. lia.
  - reflexivity.
Defined.

(** X3.  When the accepted pair names the same language twice and the text
    is accepted, the loader gives the text back as the output text and only
    reads the catalogues: nothing is sent, whatever the SDK would do. *)
Theorem loader_same_language_echoes :
  forall (sdk : Groq.Sdk) (server : TranslateServer) (payload : Payload)
         (t : string) (tr : Trace),
    LanguageType.LanguageOutputId (submitted_or "en" (payload "outputLanguage")) ->
    submitted_or "auto" (payload "inputLanguage")
    = submitted_or "en" (payload "outputLanguage") ->
    payload "inputText" = Some t ->
    3 <= utf16_length t <= 200 ->
    IndexRoute.loader sdk server payload tr
    = (Fulfilled
         {| IndexRoute.supportedInputLanguages :=
              LanguageType.getSupportedInputLanguages tt;
            IndexRoute.supportedOutputLanguages :=
              LanguageType.getSupportedOutputLanguages tt;
            IndexRoute.inputLanguage :=
              submitted_or "en" (payload "outputLanguage");
            IndexRoute.outputLanguage :=
              submitted_or "en" (payload "outputLanguage");
            IndexRoute.outputText := t |},
       (tr ++ registry_reads)%list).
Proof.
  intros sdk server payload t tr Ho Hsame Ht Hlen.
  assert (Hi : LanguageType.LanguageInputId
                 (submitted_or "auto" (payload "inputLanguage"))).
  { rewrite Hsame. right. exact Ho. }
  unfold IndexRoute.loader, bind, perform.
  rewrite (languages_accepted payload Hi Ho), (text_accepted payload t Ht Hlen).
  cbv beta iota zeta. simpl IndexRoute.Languages.inputLanguage.
  simpl IndexRoute.Languages.outputLanguage.
  rewrite Hsame, translateText_same.
  unfold ret, registry_reads. rewrite <- app_assoc. reflexivity.
Qed.

Lemma loader_same_language_echoes_witness :
  IndexRoute.loader (broken_sdk (Error "no client")) demo_server
    (payload_of [("inputLanguage", "en"); ("inputText", "Hello")]) []
  = (Fulfilled
       {| IndexRoute.supportedInputLanguages :=
            LanguageType.getSupportedInputLanguages tt;
          IndexRoute.supportedOutputLanguages :=
            LanguageType.getSupportedOutputLanguages tt;
          IndexRoute.inputLanguage := "en";
          IndexRoute.outputLanguage := "en";
          IndexRoute.outputText := "Hello" |},
     registry_reads).
Proof.
  apply (loader_same_language_echoes (broken_sdk (Error "no client"))
           demo_server
           (payload_of [("inputLanguage", "en"); ("inputText", "Hello")])
           "Hello" []).
  - cbv. auto.
  - reflexivity.
  - reflexivity.
  - simpl. lia.
Defined.

Lemma loader_throws_on_refused_pair
  (sdk : Groq.Sdk) (server : TranslateServer) (payload : Payload) (tr : Trace) :
  ~ (LanguageType.LanguageInputId
       (submitted_or "auto" (payload "inputLanguage")) /\
     LanguageType.LanguageOutputId
       (submitted_or "en" (payload "outputLanguage"))) ->
  IndexRoute.loader sdk server payload tr
  = (Rejected (Error "Invalid search params, never reach here"),
     (tr ++ registry_reads)%list).
Proof.
  intros Hbad.
  destruct (languages_refused payload Hbad) as (issues & Hlang).
  unfold IndexRoute.loader, bind, perform. rewrite Hlang.
  unfold throw, registry_reads. rewrite <- app_assoc. reflexivity.
Qed.

(** X4.  When the language pair is refused (an identifier outside its list),
    the loader throws the error [Invalid search params, never reach here]
    after reading the catalogues, whether or not the text would have been
    accepted, and nothing is sent. *)
Theorem loader_refused_languages_throw :
  forall (sdk : Groq.Sdk) (server : TranslateServer) (payload : Payload)
         (tr : Trace),
    ~ (LanguageType.LanguageInputId
         (submitted_or "auto" (payload "inputLanguage")) /\
       LanguageType.LanguageOutputId
         (submitted_or "en" (payload "outputLanguage"))) ->
    IndexRoute.loader sdk server payload tr
    = (Rejected (Error "Invalid search params, never reach here"),
       (tr ++ registry_reads)%list).
Proof.
  intros sdk server payload tr Hbad.
  now apply loader_throws_on_refused_pair.
Qed.

Lemma loader_refused_languages_throw_witness :
  IndexRoute.loader (stub_sdk (fun _ => Fulfilled (completion_of (Some "Hi"))))
    demo_server
    (payload_of [("inputLanguage", "fr"); ("inputText", "Bonjour")]) []
  = (Rejected (Error "Invalid search params, never reach here"), registry_reads).
Proof.
  apply (loader_refused_languages_throw
           (stub_sdk (fun _ => Fulfilled (completion_of (Some "Hi"))))
           demo_server
           (payload_of [("inputLanguage", "fr"); ("inputText", "Bonjour")]) []).
  intros [Hi _]. cbv in Hi.
  destruct Hi as [H | [H | [H | [H | []]]]]; discriminate H.
Defined.

(** ** The handlers of the form *)

(** X5.  When the swap button is enabled (the source is not [auto], differs
    from the target and no navigation is under way) and the selected pair is
    of the declared types, [handleSubmit] submits a pair the loader's schema
    accepts: the former target as source and the former source as target,
    two different identifiers; the state holds the same swapped pair. *)
Theorem handleSubmit_enabled_swap_is_accepted :
  forall v : IndexRoute.View.State,
    IndexRoute.swap_disabled v = false ->
    LanguageType.LanguageInputId (IndexRoute.View.inputLanguage v) ->
    LanguageType.LanguageOutputId (IndexRoute.View.outputLanguage v) ->
    parseWithZod (snd (IndexRoute.handleSubmit v)) IndexRoute.languageSchema
    = Zod.success
        {| IndexRoute.Languages.inputLanguage := IndexRoute.View.outputLanguage v;
           IndexRoute.Languages.outputLanguage := IndexRoute.View.inputLanguage v |}
    /\ IndexRoute.View.outputLanguage v <> IndexRoute.View.inputLanguage v
    /\ IndexRoute.View.inputLanguage (fst (IndexRoute.handleSubmit v))
       = IndexRoute.View.outputLanguage v
    /\ IndexRoute.View.outputLanguage (fst (IndexRoute.handleSubmit v))
       = IndexRoute.View.inputLanguage v.
Proof.
  intros [txt i o loaded busy] Hguard Hi Ho.
  unfold IndexRoute.swap_disabled in Hguard. simpl in *.
  destruct Hi as [<- | [<- | [<- | [<- | []]]]];
    destruct Ho as [<- | [<- | [<- | []]]];
    destruct busy; try discriminate Hguard;
    (split; [reflexivity | split; [discriminate | split; reflexivity]]).
Qed.

Lemma handleSubmit_enabled_swap_is_accepted_witness :
  parseWithZod
    (snd (IndexRoute.handleSubmit
            {| IndexRoute.View.inputText := "Hola";
               IndexRoute.View.inputLanguage := "es";
               IndexRoute.View.outputLanguage := "de";
               IndexRoute.View.loadedOutputText := "Hallo";
               IndexRoute.View.isTranslating := false |}))
    IndexRoute.languageSchema
  = Zod.success
      {| IndexRoute.Languages.inputLanguage := "de";
         IndexRoute.Languages.outputLanguage := "es" |}.
Proof.
  apply (handleSubmit_enabled_swap_is_accepted
           {| IndexRoute.View.inputText := "Hola";
              IndexRoute.View.inputLanguage := "es";
              IndexRoute.View.outputLanguage := "de";
              IndexRoute.View.loadedOutputText := "Hallo";
              IndexRoute.View.isTranslating := false |}).
  - reflexivity.
  - cbv. auto.
  - cbv. auto.
Defined.

(** X6.  [handleSubmit] does not test the condition that disables the swap
    button.  Run on a state whose source is [auto] it submits [auto] as the
    target, and the loader answers that submission by throwing
    [Invalid search params, never reach here]. *)
Theorem handleSubmit_from_auto_makes_loader_throw :
  forall (sdk : Groq.Sdk) (server : TranslateServer)
         (v : IndexRoute.View.State) (tr : Trace),
    IndexRoute.View.inputLanguage v = "auto" ->
    snd (IndexRoute.handleSubmit v) "outputLanguage" = Some "auto" /\
    IndexRoute.loader sdk server (snd (IndexRoute.handleSubmit v)) tr
    = (Rejected (Error "Invalid search params, never reach here"),
       (tr ++ registry_reads)%list).
Proof.
  intros sdk server [txt i o loaded busy] tr Hauto. simpl in Hauto. subst i.
  split; [reflexivity |].
  apply loader_throws_on_refused_pair.
  intros [_ Ho]. cbv in Ho.
  destruct Ho as [H | [H | [H | []]]]; discriminate H.
Qed.

Lemma handleSubmit_from_auto_makes_loader_throw_witness :
  IndexRoute.loader (stub_sdk (fun _ => Fulfilled (completion_of (Some "Hi"))))
    demo_server
    (snd (IndexRoute.handleSubmit
            {| IndexRoute.View.inputText := "Hola mundo";
               IndexRoute.View.inputLanguage := "auto";
               IndexRoute.View.outputLanguage := "en";
               IndexRoute.View.loadedOutputText := "Hello world";
               IndexRoute.View.isTranslating := false |}))
    []
  = (Rejected (Error "Invalid search params, never reach here"), registry_reads).
Proof.
  apply (proj2 (handleSubmit_from_auto_makes_loader_throw
                  (stub_sdk (fun _ => Fulfilled (completion_of (Some "Hi"))))
                  demo_server
                  {| IndexRoute.View.inputText := "Hola mundo";
                     IndexRoute.View.inputLanguage := "auto";
                     IndexRoute.View.outputLanguage := "en";
                     IndexRoute.View.loadedOutputText := "Hello world";
                     IndexRoute.View.isTranslating := false |}
                  [] eq_refl)).
Defined.

(** X7.  [handleChangeForm] tests the text held in the state, not the form
    it serializes.  It submits exactly when the held text has more than 3
    code units, and then it submits the form as it is, debounced when the
    event comes from the textarea and at once otherwise.  The threshold is
    one above the schema's: a held text of exactly 3 code units, which the
    loader's schema accepts, triggers no submission. *)
Theorem handleChangeForm_tests_held_text :
  forall (held : string) (form : Payload) (targetIsTextArea : bool),
    (IndexRoute.handleChangeForm held form targetIsTextArea
     <> IndexRoute.NoSubmit <-> 3 < utf16_length held) /\
    (3 < utf16_length held ->
     IndexRoute.handleChangeForm held form targetIsTextArea
     = (if targetIsTextArea then IndexRoute.DebouncedSubmit form
        else IndexRoute.Submit form)) /\
    (utf16_length held = 3 ->
     IndexRoute.handleChangeForm held form targetIsTextArea
     = IndexRoute.NoSubmit /\
     forall payload : Payload,
       payload "inputText" = Some held ->
       parseWithZod payload IndexRoute.translateTextSchema = Zod.success held).
Proof.
  intros held form b. unfold IndexRoute.handleChangeForm.
  destruct (Nat.ltb_spec 3 (utf16_length held)) as [Hgt | Hle].
  - split; [| split].
    + split; [intros _; exact Hgt | intros _; destruct b; discriminate].
    + intros _. reflexivity.
    + intros Heq. lia.
  - split; [| split].
    + split; [intros H; now destruct H | intros Hgt; lia].
    + intros Hgt. lia.
    + intros Heq. split; [reflexivity |].
      intros payload Hfield. apply text_accepted; [exact Hfield | lia].
Qed.

Lemma handleChangeForm_tests_held_text_witness :
  IndexRoute.handleChangeForm "hola" (payload_of [("inputText", "ho")]) true
  = IndexRoute.DebouncedSubmit (payload_of [("inputText", "ho")]) /\
  IndexRoute.handleChangeForm "año" (payload_of [("inputText", "años")]) true
  = IndexRoute.NoSubmit /\
  parseWithZod (payload_of [("inputText", "año")]) IndexRoute.translateTextSchema
  = Zod.success "año".
Proof.
  split; [| split].
  - apply (proj1 (proj2 (handleChangeForm_tests_held_text "hola"
                           (payload_of [("inputText", "ho")]) true))).
    simpl. lia.
  - apply (proj1 (proj2 (proj2 (handleChangeForm_tests_held_text "año"
                                  (payload_of [("inputText", "años")]) true))
                    eq_refl)).
  - apply (proj2 (proj2 (proj2 (handleChangeForm_tests_held_text "año"
                                  (payload_of [("inputText", "años")]) true))
                    eq_refl)).
    reflexivity.
Defined.

(** ** The loader that redirects *)

Lemma enum_success_inv (values : list string) (v : option string) (s : string) :
  Zod.enum values v = Zod.success s -> v = Some s /\ In s values.
Proof.
  destruct v as [x |]; simpl; [| discriminate].
  destruct (existsb (String.eqb x) values) eqn:Hex; [| discriminate].
  intros [= <-]. split; [reflexivity | now apply existsb_eqb_In].
Qed.

Lemma enum_error_nonempty (values : list string) (v : option string)
  (issues : list Zod.Issue) :
  Zod.enum values v = Zod.error issues -> issues <> [].
Proof.
  destruct v as [x |]; simpl.
  - destruct (existsb (String.eqb x) values); [discriminate |].
    intros [= <-]. discriminate.
  - intros [= <-]. discriminate.
Qed.

Lemma string_min_max_error_nonempty (req short long : string) (lo hi : nat)
  (v : option string) (issues : list Zod.Issue) :
  Zod.string_min_max req lo short hi long v = Zod.error issues -> issues <> [].
Proof.
  destruct v as [t |]; simpl.
  - destruct (utf16_length t <? lo)%nat, (hi <? utf16_length t)%nat; simpl;
      try discriminate; intros [= <-]; discriminate.
  - intros [= <-]. discriminate.
Qed.

Lemma string_min_max_success_inv (req short long : string) (lo hi : nat)
  (v : option string) (t : string) :
  Zod.string_min_max req lo short hi long v = Zod.success t ->
  v = Some t /\ lo <= utf16_length t <= hi.
Proof.
  destruct v as [x |]; simpl; [| discriminate].
  destruct (Nat.ltb_spec (utf16_length x) lo), (Nat.ltb_spec hi (utf16_length x));
    simpl; try discriminate.
  intros [= <-]. split; [reflexivity | lia].
Qed.

(** X8.  In the listing that redirects, the text is checked before the
    language pair: when the text is missing, empty, shorter than 3 code
    units or longer than 50, the loader answers with the catalogues and an
    empty output text whatever the language fields hold (even identifiers
    no list has), without redirecting and without sending anything. *)
Theorem redirect_loader_checks_text_first :
  forall (sdk : Groq.Sdk) (server : TranslateServer) (payload : Payload)
         (tr : Trace),
    (forall t, payload "inputText" = Some t ->
               utf16_length t < 3 \/ 50 < utf16_length t) ->
    IndexRouteRedirect.loader sdk server payload tr
    = (Fulfilled
         (IndexRouteRedirect.Data
            {| IndexRouteRedirect.supportedInputLanguages :=
                 LanguageType.getSupportedInputLanguages tt;
               IndexRouteRedirect.supportedOutputLanguages :=
                 LanguageType.getSupportedOutputLanguages tt;
               IndexRouteRedirect.outputText := EmptyString |}),
       (tr ++ registry_reads)%list).
Proof.
  intros sdk server payload tr Hbad.
  unfold IndexRouteRedirect.loader, bind, perform, parseWithZod,
    IndexRouteRedirect.translateTextSchema.
  destruct (string_min_max_refuses "Provide a text"
              "Provide a text at least of 3 characters"
              "Provide a text at max of 50 characters" 3 50
              (strip_empty (payload "inputText"))) as (issues & -> & _).
  - intros t Ht. apply Hbad. now apply strip_empty_keeps.
  - unfold ret, registry_reads. rewrite <- app_assoc. reflexivity.
Qed.

Lemma redirect_loader_checks_text_first_witness :
  IndexRouteRedirect.loader
    (stub_sdk (fun _ => Fulfilled (completion_of (Some "Hi")))) demo_server
    (payload_of [("inputLanguage", "fr"); ("outputLanguage", "auto");
                 ("inputText", "ab")]) []
  = (Fulfilled
       (IndexRouteRedirect.Data
          {| IndexRouteRedirect.supportedInputLanguages :=
               LanguageType.getSupportedInputLanguages tt;
             IndexRouteRedirect.supportedOutputLanguages :=
               LanguageType.getSupportedOutputLanguages tt;
             IndexRouteRedirect.outputText := EmptyString |}),
     registry_reads).
Proof.
  apply (redirect_loader_checks_text_first
           (stub_sdk (fun _ => Fulfilled (completion_of (Some "Hi"))))
           demo_server
           (payload_of [("inputLanguage", "fr"); ("outputLanguage", "auto");
                        ("inputText", "ab")]) []).
  intros t [= <-]. left. simpl. lia.
Defined.

(** X9.  In the listing that redirects, an accepted text (3 to 50 code
    units) with a language pair that is not fully given and listed (a field
    missing or empty, or an identifier outside its list) makes the loader
    answer with a redirection to [/] carrying [Invalid search params]; the
    loader does not throw and nothing is sent. *)
Theorem redirect_loader_refused_languages :
  forall (sdk : Groq.Sdk) (server : TranslateServer) (payload : Payload)
         (t : string) (tr : Trace),
    payload "inputText" = Some t ->
    3 <= utf16_length t <= 50 ->
    ~ (exists i o : string,
          payload "inputLanguage" = Some i /\ LanguageType.LanguageInputId i /\
          payload "outputLanguage" = Some o /\ LanguageType.LanguageOutputId o) ->
    IndexRouteRedirect.loader sdk server payload tr
    = (Fulfilled
         (IndexRouteRedirect.RedirectWithError "/" "Invalid search params"),
       (tr ++ registry_reads)%list).
Proof.
  intros sdk server payload t tr Ht Hlen Hbad.
  unfold IndexRouteRedirect.loader, bind, perform, parseWithZod,
    IndexRouteRedirect.translateTextSchema, IndexRouteRedirect.languageSchema.
  rewrite Ht, strip_empty_long by lia.
  rewrite string_min_max_accepts by exact Hlen.
  destruct (Zod.enum ["auto"; "en"; "es"; "de"]
              (strip_empty (payload "inputLanguage"))) as [i | issues1] eqn:Hi;
    destruct (Zod.enum ["en"; "es"; "de"]
                (strip_empty (payload "outputLanguage"))) as [o | issues2] eqn:Ho;
    try (unfold ret, registry_reads; rewrite <- app_assoc; reflexivity).
  exfalso. apply Hbad.
  apply enum_success_inv in Hi. apply enum_success_inv in Ho.
  destruct Hi as [Hi Hini]. destruct Ho as [Ho Hino].
  exists i, o. repeat split; try assumption; now apply strip_empty_keeps.
Qed.

Lemma redirect_loader_refused_languages_witness :
  IndexRouteRedirect.loader
    (stub_sdk (fun _ => Fulfilled (completion_of (Some "Hi")))) demo_server
    (payload_of [("outputLanguage", "en"); ("inputText", "Hola mundo")]) []
  = (Fulfilled
       (IndexRouteRedirect.RedirectWithError "/" "Invalid search params"),
     registry_reads).
Proof.
  apply (redirect_loader_refused_languages
           (stub_sdk (fun _ => Fulfilled (completion_of (Some "Hi"))))
           demo_server
           (payload_of [("outputLanguage", "en"); ("inputText", "Hola mundo")])
           "Hola mundo" []).
  - reflexivity.
  - simpl. lia.
  - intros (i & o & Hi & _). discriminate Hi.
Defined.

(** ** The action *)

(** X10.  When the posted form is not a listed source, a listed target and a
    text of 3 to 50 code units all at once, the action answers with the
    reply of the submission, which holds at least one issue, and performs
    nothing: no catalogue is read, no client is built, no request is sent. *)
Theorem action_refused_form_performs_nothing :
  forall (sdk : Groq.Sdk) (server : TranslateServer) (formData : Payload)
         (tr : Trace),
    ~ (exists i o t : string,
          formData "inputLanguage" = Some i /\ LanguageType.LanguageInputId i /\
          formData "outputLanguage" = Some o /\ LanguageType.LanguageOutputId o /\
          formData "text" = Some t /\ 3 <= utf16_length t <= 50) ->
    exists issues : list Zod.Issue,
      issues <> [] /\
      IndexRouteAction.action sdk server formData tr
      = (Fulfilled (IndexRouteAction.Reply issues), tr).
Proof.
  intros sdk server formData tr Hbad.
  unfold IndexRouteAction.action, parseWithZod, IndexRouteAction.translateSchema.
  destruct (Zod.enum ["auto"; "en"; "es"; "de"]
              (strip_empty (formData "inputLanguage"))) as [i | issues1] eqn:Hi;
    destruct (Zod.enum ["en"; "es"; "de"]
                (strip_empty (formData "outputLanguage"))) as [o | issues2] eqn:Ho;
    destruct (Zod.string_min_max "Provide a text" 3
                "Provide a text at least of 3 characters" 50
                "Provide a text at max of 50 characters"
                (strip_empty (formData "text"))) as [t | issues3] eqn:Ht;
    try apply enum_error_nonempty in Hi;
    try apply enum_error_nonempty in Ho;
    try apply string_min_max_error_nonempty in Ht.
  1: { exfalso. apply Hbad.
       apply enum_success_inv in Hi. apply enum_success_inv in Ho.
       apply string_min_max_success_inv in Ht.
       destruct Hi as [Hi Hini]. destruct Ho as [Ho Hino].
       destruct Ht as [Ht Hlen].
       exists i, o, t. repeat split; try assumption; try lia;
         now apply strip_empty_keeps. }
  all: eexists; (split; [| reflexivity]); simpl; intros Hnil;
    repeat match goal with
           | H : (_ ++ _)%list = [] |- _ =>
               apply app_eq_nil in H; destruct H
           end;
    congruence.
Qed.

Lemma action_refused_form_performs_nothing_witness :
  exists issues : list Zod.Issue,
    issues <> [] /\
    IndexRouteAction.action
      (stub_sdk (fun _ => Fulfilled (completion_of (Some "Hi")))) demo_server
      (payload_of [("_action", "translate"); ("inputLanguage", "auto");
                   ("outputLanguage", "en"); ("text", EmptyString)]) []
    = (Fulfilled (IndexRouteAction.Reply issues), []).
Proof.
  apply (action_refused_form_performs_nothing
           (stub_sdk (fun _ => Fulfilled (completion_of (Some "Hi"))))
           demo_server
           (payload_of [("_action", "translate"); ("inputLanguage", "auto");
                        ("outputLanguage", "en"); ("text", EmptyString)]) []).
  intros (i & o & t & _ & _ & _ & _ & Ht & Hlen).
  injection Ht as <-. simpl in Hlen. lia.
Defined.

(** X11.  When the posted form holds a listed source, a different listed
    target and a text of 3 to 50 code units, and the client can be built,
    the action sends exactly one request whose last message carries names
    the catalogues list under the two identifiers, and answers with what the
    service makes of the completion. *)
Theorem action_translates_with_listed_names :
  forall (sdk : Groq.Sdk) (server : TranslateServer) (groq : Groq.Client sdk)
         (formData : Payload) (i o t : string) (tr : Trace),
    formData "inputLanguage" = Some i -> LanguageType.LanguageInputId i ->
    formData "outputLanguage" = Some o -> LanguageType.LanguageOutputId o ->
    i <> o ->
    formData "text" = Some t -> 3 <= utf16_length t <= 50 ->
    new_client sdk server = Fulfilled groq ->
    exists fromName toName : string,
      In {| LanguageType.id := i; LanguageType.name := fromName |}
         (LanguageType.getSupportedInputLanguages tt) /\
      In {| LanguageType.id := o; LanguageType.name := toName |}
         (LanguageType.getSupportedOutputLanguages tt) /\
      IndexRouteAction.action sdk server formData tr
      = (Fulfilled
           (IndexRouteAction.OutputText
              (settle_completion
                 (Groq.chat_completions_create sdk groq
                    (completion_request t (Some fromName) (Some toName))))),
         (tr ++
          [ EvNewGroq {| Groq.apiKey := Some (GROQ_API_KEY server) |};
            EvGetSupportedInputLanguages;
            EvGetSupportedOutputLanguages;
            EvChatCompletionsCreate
              (completion_request t (Some fromName) (Some toName)) ])%list).
Proof.
  intros sdk server groq formData i o t tr Hfi Hi Hfo Ho Hne Hft Hlen Hnew.
  destruct (input_identifier_listed _ Hi) as (fromName & Hfrom & Hin).
  destruct (output_identifier_listed _ Ho) as (toName & Hto & Hout).
  exists fromName, toName. split; [exact Hin |]. split; [exact Hout |].
  assert (Hsi : strip_empty (Some i) = Some i).
  { simpl. destruct (String.eqb_spec i EmptyString) as [-> | _]; [| reflexivity].
    cbv in Hi. destruct Hi as [H | [H | [H | [H | []]]]]; discriminate H. }
  assert (Hso : strip_empty (Some o) = Some o).
  { simpl. destruct (String.eqb_spec o EmptyString) as [-> | _]; [| reflexivity].
    cbv in Ho. destruct Ho as [H | [H | [H | []]]]; discriminate H. }
  unfold IndexRouteAction.action, parseWithZod, IndexRouteAction.translateSchema.
  rewrite Hfi, Hfo, Hft, Hsi, Hso, strip_empty_long by lia.
  rewrite (enum_accepts _ i Hi), (enum_accepts _ o Ho).
  rewrite string_min_max_accepts by exact Hlen.
  unfold bind. simpl IndexRouteAction.Translate.inputLanguage.
  simpl IndexRouteAction.Translate.outputLanguage.
  simpl IndexRouteAction.Translate.text.
  rewrite (translateText_distinct sdk server i o t groq tr Hne Hnew).
  unfold call_events. rewrite Hfrom, Hto. reflexivity.
Qed.

Lemma action_translates_with_listed_names_witness :
  exists fromName toName : string,
    In {| LanguageType.id := "auto"; LanguageType.name := fromName |}
       (LanguageType.getSupportedInputLanguages tt) /\
    In {| LanguageType.id := "de"; LanguageType.name := toName |}
       (LanguageType.getSupportedOutputLanguages tt) /\
    IndexRouteAction.action
      (stub_sdk (fun _ => Fulfilled (completion_of (Some "Wie geht es dir?"))))
      demo_server
      (payload_of [("inputLanguage", "auto"); ("outputLanguage", "de");
                   ("text", "How are you?")]) []
    = (Fulfilled (IndexRouteAction.OutputText "Wie geht es dir?"),
       [ EvNewGroq {| Groq.apiKey := Some "gsk_demo" |};
         EvGetSupportedInputLanguages;
         EvGetSupportedOutputLanguages;
         EvChatCompletionsCreate
           (completion_request "How are you?" (Some fromName) (Some toName)) ]).
Proof.
  apply (action_translates_with_listed_names
           (stub_sdk (fun _ => Fulfilled (completion_of (Some "Wie geht es dir?"))))
           demo_server "gsk_demo"
           (payload_of [("inputLanguage", "auto"); ("outputLanguage", "de");
                        ("text", "How are you?")])
           "auto" "de" "How are you?" []).
  - reflexivity.
  - cbv. auto.
  - reflexivity.
  - cbv. auto.
  - discriminate.
  - reflexivity.
  - simpl. lia.
  - reflexivity.
Defined.

(** ** The catalogues as lookup tables *)

Lemma lookup_name_own (langs : list LanguageType.Language)
  (lang : LanguageType.Language) :
  NoDup (map LanguageType.id langs) ->
  In lang langs ->
  lookup_name langs (LanguageType.id lang) = Some (LanguageType.name lang).
Proof.
  unfold lookup_name.
  induction langs as [| hd langs IH]; intros Hnd Hin; [destruct Hin |].
  simpl in Hnd. inversion Hnd as [| x xs Hfresh Hrest]; subst.
  simpl. destruct Hin as [-> | Hin].
  - now rewrite String.eqb_refl.
  - destruct (String.eqb_spec (LanguageType.id hd) (LanguageType.id lang))
      as [Heq | Hne].
    + exfalso. apply Hfresh. rewrite Heq. now apply in_map.
    + now apply IH.
Qed.

Lemma input_ids_NoDup :
  NoDup (map LanguageType.id (LanguageType.getSupportedInputLanguages tt)).
Proof.
  simpl. repeat constructor; simpl;
    intros H; repeat destruct H as [H | H]; try discriminate H; exact H.
Qed.

Lemma output_ids_NoDup :
  NoDup (map LanguageType.id (LanguageType.getSupportedOutputLanguages tt)).
Proof.
  simpl. repeat constructor; simpl;
    intros H; repeat destruct H as [H | H]; try discriminate H; exact H.
Qed.

(** X12.  No identifier is listed twice, so looking a catalogue entry up by
    its identifier finds that entry's own display name, in both
    catalogues. *)
Theorem catalogue_entries_resolve_to_their_names :
  forall lang : LanguageType.Language,
    (In lang (LanguageType.getSupportedInputLanguages tt) ->
     lookup_name (LanguageType.getSupportedInputLanguages tt)
       (LanguageType.id lang) = Some (LanguageType.name lang)) /\
    (In lang (LanguageType.getSupportedOutputLanguages tt) ->
     lookup_name (LanguageType.getSupportedOutputLanguages tt)
       (LanguageType.id lang) = Some (LanguageType.name lang)).
Proof.
  intros lang. split; intros Hin.
  - apply lookup_name_own; [exact input_ids_NoDup | exact Hin].
  - apply lookup_name_own; [exact output_ids_NoDup | exact Hin].
Qed.

Lemma catalogue_entries_resolve_to_their_names_witness :
  lookup_name (LanguageType.getSupportedInputLanguages tt) "es" = Some "Español" /\
  lookup_name (LanguageType.getSupportedOutputLanguages tt) "de" = Some "Deutsch".
Proof.
  split.
  - apply (proj1 (catalogue_entries_resolve_to_their_names
                    {| LanguageType.id := "es"; LanguageType.name := "Español" |})).
    simpl. auto.
  - apply (proj2 (catalogue_entries_resolve_to_their_names
                    {| LanguageType.id := "de"; LanguageType.name := "Deutsch" |})).
    simpl. auto.
Defined.

(** X13.  The two catalogues give one language one name: a name found for
    an identifier in the output catalogue is the name found for it in the
    input catalogue, and every input identifier other than [auto] is found
    in the output catalogue under the same name. *)
Theorem catalogues_agree_on_names :
  forall i n : string,
    (lookup_name (LanguageType.getSupportedOutputLanguages tt) i = Some n ->
     lookup_name (LanguageType.getSupportedInputLanguages tt) i = Some n) /\
    (lookup_name (LanguageType.getSupportedInputLanguages tt) i = Some n ->
     i <> "auto" ->
     lookup_name (LanguageType.getSupportedOutputLanguages tt) i = Some n).
Proof.
  intros i n. split.
  - intros H. apply lookup_name_Some in H. simpl in H.
    destruct H as [H | [H | [H | []]]]; injection H as <- <-; reflexivity.
  - intros H Hne. apply lookup_name_Some in H. simpl in H.
    destruct H as [H | [H | [H | [H | []]]]]; injection H as <- <-;
      try reflexivity.
    now destruct Hne.
Qed.

Lemma catalogues_agree_on_names_witness :
  lookup_name (LanguageType.getSupportedInputLanguages tt) "es" = Some "Español" /\
  lookup_name (LanguageType.getSupportedOutputLanguages tt) "de" = Some "Deutsch".
Proof.
  split.
  - apply (proj1 (catalogues_agree_on_names "es" "Español")). reflexivity.
  - apply (proj2 (catalogues_agree_on_names "de" "Deutsch"));
      [reflexivity | discriminate].
Defined.

(** ** Errors around the [try] block of the service *)

(** X14.  The client is built before the [try] block: when the constructor
    throws and the identifiers differ, the call is rejected with the
    constructor's error instead of returning the failure string, after the
    attempt to build the client and nothing else. *)
Theorem translateText_constructor_error_escapes :
  forall (sdk : Groq.Sdk) (server : TranslateServer)
         (fromLanguageId toLanguageId inputText : string) (e : JsError)
         (tr : Trace),
    fromLanguageId <> toLanguageId ->
    new_client sdk server = Rejected e ->
    translateText sdk server fromLanguageId toLanguageId inputText tr
    = (Rejected e,
       (tr ++ [EvNewGroq {| Groq.apiKey := Some (GROQ_API_KEY server) |}])%list).
Proof.
  intros sdk server f t x e tr Hne Hnew.
  now apply translateText_constructor_throws.
Qed.

Lemma translateText_constructor_error_escapes_witness :
  translateText (broken_sdk (Error "no client")) demo_server "es" "en" "Hola" []
  = (Rejected (Error "no client"),
     [EvNewGroq {| Groq.apiKey := Some "gsk_demo" |}]).
Proof.
  apply (translateText_constructor_error_escapes (broken_sdk (Error "no client"))
           demo_server "es" "en" "Hola" (Error "no client") []).
  - discriminate.
  - reflexivity.
Defined.

(** X15.  A request that is fulfilled with a response holding no choice
    gives the failure string: reading the first choice throws inside the
    [try] block, and the handler answers as for a failed request. *)
Theorem translateText_empty_choices_give_failure_string :
  forall (sdk : Groq.Sdk) (server : TranslateServer) (groq : Groq.Client sdk)
         (fromLanguageId toLanguageId inputText : string) (tr : Trace),
    fromLanguageId <> toLanguageId ->
    new_client sdk server = Fulfilled groq ->
    Groq.chat_completions_create sdk groq
      (completion_request inputText
         (lookup_name (LanguageType.getSupportedInputLanguages tt) fromLanguageId)
         (lookup_name (LanguageType.getSupportedOutputLanguages tt) toLanguageId))
    = Fulfilled {| Groq.Response.choices := [] |} ->
    translateText sdk server fromLanguageId toLanguageId inputText tr
    = (Fulfilled "Error translating text",
       (tr ++ call_events server fromLanguageId toLanguageId inputText)%list).
Proof.
  intros sdk server groq f t x tr Hne Hnew Hcall.
  rewrite (translateText_distinct sdk server f t x groq tr Hne Hnew).
  rewrite Hcall. reflexivity.
Qed.

Lemma translateText_empty_choices_give_failure_string_witness :
  translateText
    (stub_sdk (fun _ => Fulfilled {| Groq.Response.choices := [] |}))
    demo_server "en" "de" "Good morning" []
  = (Fulfilled "Error translating text",
     call_events demo_server "en" "de" "Good morning").
Proof.
  apply (translateText_empty_choices_give_failure_string
           (stub_sdk (fun _ => Fulfilled {| Groq.Response.choices := [] |}))
           demo_server "gsk_demo" "en" "de" "Good morning" []).
  - discriminate.
  - reflexivity.
  - reflexivity.
Defined.

(** X16.  The failure string is an ordinary return value: a call whose
    request failed and a call whose request was answered with the content
    [Error translating text] end the same way and leave the same trace, so
    a caller cannot tell the two apart. *)
Theorem translateText_failure_string_is_ambiguous :
  forall (failing answering : Groq.Sdk) (server : TranslateServer)
         (groq1 : Groq.Client failing) (groq2 : Groq.Client answering)
         (fromLanguageId toLanguageId inputText : string) (e : JsError)
         (rest : list Groq.Response.Choice) (tr : Trace),
    fromLanguageId <> toLanguageId ->
    new_client failing server = Fulfilled groq1 ->
    new_client answering server = Fulfilled groq2 ->
    Groq.chat_completions_create failing groq1
      (completion_request inputText
         (lookup_name (LanguageType.getSupportedInputLanguages tt) fromLanguageId)
         (lookup_name (LanguageType.getSupportedOutputLanguages tt) toLanguageId))
    = Rejected e ->
    Groq.chat_completions_create answering groq2
      (completion_request inputText
         (lookup_name (LanguageType.getSupportedInputLanguages tt) fromLanguageId)
         (lookup_name (LanguageType.getSupportedOutputLanguages tt) toLanguageId))
    = Fulfilled
        {| Groq.Response.choices :=
             {| Groq.Response.message :=
                  {| Groq.Response.content := Some "Error translating text" |} |}
             :: rest |} ->
    translateText failing server fromLanguageId toLanguageId inputText tr
    = translateText answering server fromLanguageId toLanguageId inputText tr.
Proof.
  intros failing answering server groq1 groq2 f t x e rest tr Hne H1 H2 Hfail Hans.
  rewrite (translateText_distinct failing server f t x groq1 tr Hne H1).
  rewrite (translateText_distinct answering server f t x groq2 tr Hne H2).
  rewrite Hfail, Hans. reflexivity.
Qed.

Lemma translateText_failure_string_is_ambiguous_witness :
  translateText (stub_sdk (fun _ => Rejected (APIError 401 "Invalid API Key")))
    demo_server "es" "en" "Hola" []
  = translateText
      (stub_sdk (fun _ => Fulfilled (completion_of (Some "Error translating text"))))
      demo_server "es" "en" "Hola" [].
Proof.
  apply (translateText_failure_string_is_ambiguous
           (stub_sdk (fun _ => Rejected (APIError 401 "Invalid API Key")))
           (stub_sdk (fun _ => Fulfilled (completion_of (Some "Error translating text"))))
           demo_server "gsk_demo" "gsk_demo" "es" "en" "Hola"
           (APIError 401 "Invalid API Key") [] []).
  - discriminate.
  - reflexivity.
  - reflexivity.
  - reflexivity.
  - reflexivity.
Defined.

(** The loader of the listing with an action finds a first output language:
    it is fulfilled, and the default target it reports is [en]. *)
Lemma action_loader_default_output (tr : Trace) :
  IndexRouteAction.loader tt tr
  = (Fulfilled
       {| IndexRouteAction.supportedInputLanguages :=
            LanguageType.getSupportedInputLanguages tt;
          IndexRouteAction.supportedOutputLanguages :=
            LanguageType.getSupportedOutputLanguages tt;
          IndexRouteAction.defaultOutputLanguage := "en" |},
     (tr ++ registry_reads)%list).
Proof.
  unfold IndexRouteAction.loader, bind, perform, ret, registry_reads. simpl.
  rewrite <- app_assoc. reflexivity.
Qed.
